(** * Record sink of the kafka-elasticsearch-injector

    A shallow embedding of [src/elasticsearch/elasticsearch.go]: the
    [recordDatabase] sink with its package-level client handle
    [esClient], the derivation of index names and document ids, the bulk
    insert and the readiness probe.

    The Go code talks to three collaborators that are not part of the
    file: the [models] package (records), the [elastic] client library
    and the go-kit logger.  Records and the client library are modelled
    in the modules [models] and [elastic] below; every call the sink
    makes on the library or on the logger (connect, stop, [Do] of a
    bulk service, [Do] of a ping, log line) is recorded as an [Event]
    in a trace.  What the library answers comes from its own checks,
    which are written out, and beyond them from a [World] of oracles
    that may look at the trace so far. *)

From Stdlib Require Import ZArith HexString.
From stdpp Require Import base strings list gmap fin_maps.

Set Warnings "-register-all".

Open Scope Z_scope.
Open Scope string_scope.
Open Scope list_scope.
Open Scope stdpp_scope.

(** ** Go's [error] values

    [FieldNotFound] is the lookup failure of a record, [errors_New] is
    [errors.New] of github.com/pkg/errors, [ClientError] stands for any
    error value handed out by the elastic client, [RuntimeError] for a
    run-time panic of Go itself. *)
Inductive error : Type :=
| FieldNotFound (field : string)
| errors_New (msg : string)
| ClientError (msg : string)
| RuntimeError (msg : string).

(** ** Package [models] *)
Module models.

(** Modelled from the spec: the type [models.Record] is declared outside
    the sources at hand.  The spec describes a message with a source
    topic, a timestamp (consumed as a formatted string), a set of named
    fields with string values, and a default identifier. *)
Record Record_ : Type := {
  Topic : string;
  Timestamp : string;
  Fields : gmap string string;
  Id : string
}.

(** Modelled from the spec: [FormatTimestamp] is absent from the
    sources; it yields the record's formatted timestamp string. *)
Definition FormatTimestamp (r : Record_) : string := Timestamp r.

(** Modelled from the spec: [GetId] is absent from the sources; it
    yields the record's default identifier. *)
Definition GetId (r : Record_) : string := Id r.

(** Modelled from the spec: [GetValueForField] is absent from the
    sources; it is the per-field string value lookup that fails with
    [FieldNotFound] when the record lacks the field.  As in Go the
    result is a pair of a value and an error. *)
Definition GetValueForField (r : Record_) (field : string)
  : string * option error :=
  match Fields r !! field with
  | Some v => (v, None)
  | None => ("", Some (FieldNotFound field))
  end.

(** Modelled from the spec: [FilteredFieldsJSON] is absent from the
    sources; it yields all fields of the record minus the blacklisted
    field names. *)
Definition FilteredFieldsJSON (r : Record_) (blacklistedColumns : list string)
  : gmap string string :=
  filter (λ kv, kv.1 ∉ blacklistedColumns) (Fields r).

End models.

(** ** Package [elastic] (github.com/olivere/elastic)

    Only the part of the client library the sink touches: handles, bulk
    index requests, the bulk service that collects them, and the shapes
    of the bulk and ping responses. *)
Module elastic.

(** A client handle; the number tells handles apart. *)
Inductive Client : Type := ClientHandle (id : nat).

Definition Client_eqb (a b : Client) : bool :=
  match a, b with
  | ClientHandle x, ClientHandle y => Nat.eqb x y
  end.

(** [NewBulkIndexRequest().Index(i).Type(t).Id(k).Doc(body)]. *)
Record BulkIndexRequest : Type := {
  Index : string;
  Type_ : string;
  Id : string;
  Doc : gmap string string
}.

(** [client.Bulk()] with the requests added so far, oldest first. *)
Record BulkService : Type := {
  client : Client;
  requests : list BulkIndexRequest
}.

Definition Bulk (c : Client) : BulkService :=
  {| client := c; requests := [] |}.

Definition Add (b : BulkService) (r : BulkIndexRequest) : BulkService :=
  {| client := client b; requests := requests b ++ [r] |}.

(** A value of type [interface{}] as the JSON decoder leaves it: nil, a
    bool, a float64, a string, a slice or a map with string keys.  A
    float64 is held as the text [%v] prints for it, which identifies
    it; a map is held as its entries, keys distinct, in any order. *)
Inductive Value : Type :=
| VNil
| VBool (b : bool)
| VNumber (text : string)
| VString (s : string)
| VArray (l : list Value)
| VObject (m : list (string * Value)).

(** [ErrorDetails], the error object of a response item.  [ErrType]
    and [ErrIndex] are the fields [Type] and [Index]; [RootCause] is a
    slice of pointers, each held as its address, 0 for nil. *)
Record ErrorDetails : Type := {
  ErrType : string;
  Reason : string;
  ResourceType : string;
  ResourceId : string;
  ErrIndex : string;
  Phase : string;
  Grouped : bool;
  CausedBy : list (string * Value);
  RootCause : list N;
  FailedShards : list (list (string * Value))
}.

Record BulkResponseItem : Type := {
  ItemIndex : string;
  ItemId : string;
  Status : Z;
  Error : option ErrorDetails
}.

Record BulkResponse : Type := {
  Errors : bool;
  Items : list BulkResponseItem
}.

(** [Failed()]: the items whose status is outside 200..299, in the
    order of the response. *)
Definition Failed (res : BulkResponse) : list BulkResponseItem :=
  filter (λ item : BulkResponseItem,
            ¬ (200 ≤ Status item ∧ Status item ≤ 299)%Z) (Items res).

Record PingResult : Type := {
  Version_Number : string
}.

End elastic.

(** ** Package [fmt] *)
Module fmt.

(** [fmt.Sprintf("%s-%s", a, b)]. *)
Definition Sprintf_s_dash_s (a b : string) : string := a +:+ "-" +:+ b.

(** The operands of [%v] inside a slice or a map are separated by one
    space. *)
Fixpoint spaced (parts : list string) : string :=
  match parts with
  | [] => ""
  | [x] => x
  | x :: rest => x +:+ " " +:+ spaced rest
  end.

(** [%v] of a bool. *)
Definition bool_v (b : bool) : string := if b then "true" else "false".

(** The entries of a map, already printed, in the order of their keys
    (byte-wise), which is the order [fmt] prints a map in. *)
Fixpoint insert_entry (k v : string) (sorted : list (string * string))
  : list (string * string) :=
  match sorted with
  | [] => [(k, v)]
  | (k', v') :: rest =>
      if String.leb k k' then (k, v) :: sorted
      else (k', v') :: insert_entry k v rest
  end.

Definition sort_entries (entries : list (string * string))
  : list (string * string) :=
  foldr (λ kv sorted, insert_entry kv.1 kv.2 sorted) [] entries.

Definition entries_v (entries : list (string * string)) : string :=
  "map[" +:+ spaced ((λ kv, kv.1 +:+ ":" +:+ kv.2) <$> sort_entries entries)
  +:+ "]".

(** [%v] of a value held in an [interface{}]. *)
Fixpoint value_v (v : elastic.Value) : string :=
  match v with
  | elastic.VNil => "<nil>"
  | elastic.VBool b => bool_v b
  | elastic.VNumber text => text
  | elastic.VString s => s
  | elastic.VArray l =>
      "[" +:+ spaced ((fix each (l : list elastic.Value) : list string :=
                         match l with
                         | [] => []
                         | x :: rest => value_v x :: each rest
                         end) l)
      +:+ "]"
  | elastic.VObject m =>
      entries_v ((fix each (m : list (string * elastic.Value))
                    : list (string * string) :=
                    match m with
                    | [] => []
                    | (k, x) :: rest => (k, value_v x) :: each rest
                    end) m)
  end.

(** [%v] of a [map[string]interface{}]; a nil map prints as an empty
    one. *)
Definition map_v (m : list (string * elastic.Value)) : string :=
  entries_v ((λ kv, (kv.1, value_v kv.2)) <$> m).

(** [%v] of a pointer below the top level: its address in hexadecimal,
    [<nil>] for nil. *)
Definition pointer_v (address : N) : string :=
  match address with
  | N0 => "<nil>"
  | Npos _ => HexString.of_N address
  end.

(** [%v] of a slice of pointers and of a slice of maps. *)
Definition pointers_v (l : list N) : string :=
  "[" +:+ spaced (pointer_v <$> l) +:+ "]".

Definition maps_v (l : list (list (string * elastic.Value))) : string :=
  "[" +:+ spaced (map_v <$> l) +:+ "]".

(** [fmt.Sprintf("%v", e)] for [e : *elastic.ErrorDetails]: [<nil>] for
    nil, otherwise [&{...}] around the ten fields in the order of their
    declaration, each printed with [%v]. *)
Definition Sprintf_v (e : option elastic.ErrorDetails) : string :=
  match e with
  | None => "<nil>"
  | Some d =>
      "&{" +:+ elastic.ErrType d
      +:+ " " +:+ elastic.Reason d
      +:+ " " +:+ elastic.ResourceType d
      +:+ " " +:+ elastic.ResourceId d
      +:+ " " +:+ elastic.ErrIndex d
      +:+ " " +:+ elastic.Phase d
      +:+ " " +:+ bool_v (elastic.Grouped d)
      +:+ " " +:+ map_v (elastic.CausedBy d)
      +:+ " " +:+ pointers_v (elastic.RootCause d)
      +:+ " " +:+ maps_v (elastic.FailedShards d)
      +:+ "}"
  end.

(** [fmt.Sprintf("connected to es version %s", v)]. *)
Definition Sprintf_connected (v : string) : string :=
  "connected to es version " +:+ v.

End fmt.

(** ** Configuration

    The struct [Config] is declared in another file of the package; its
    fields are taken from their uses in the sink.  [BulkTimeout] is a
    duration in nanoseconds. *)
Record Config : Type := {
  Host : string;
  Index : string;
  IndexColumn : string;
  DocIDColumn : string;
  BlacklistedColumns : list string;
  BulkTimeout : Z
}.

(** ** Process state, events and the outside world *)

Inductive Level : Type := LevelError | LevelInfo.

Inductive Event : Type :=
| EvNewClient (url : string)
| EvStop (c : elastic.Client)
| EvBulkDo (c : elastic.Client) (timeout : Z)
    (reqs : list elastic.BulkIndexRequest)
| EvPingDo (c : elastic.Client) (url : string)
| EvLog (lvl : Level) (err : option error) (message : string).

(** The package-level variable [esClient] ([None] is [nil]) together
    with the trace of the calls made on the library and the logger,
    oldest first. *)
Record State : Type := {
  esClient : option elastic.Client;
  trace : list Event
}.

(** What lies behind the elastic client.  Each oracle sees the trace up
    to and including the call it answers.  [BulkSend] is the outcome
    of a bulk request handed to the transport; [BulkExpired] is the
    error the client returns for a bulk call whose deadline has passed
    before anything is sent. *)
Record World : Type := {
  NewClient : list Event → string → elastic.Client + error;
  BulkSend : list Event → elastic.Client → Z → list elastic.BulkIndexRequest
             → elastic.BulkResponse + error;
  BulkExpired : list Event → elastic.Client → Z
                → list elastic.BulkIndexRequest → error;
  PingDo : list Event → elastic.Client → string
           → (elastic.PingResult * Z) + error
}.

(** The answer of [Do] on a bulk service with a context of the given
    timeout.  The library refuses a service without requests before
    anything is sent; a timeout that is not positive gives a context
    whose deadline has passed, and nothing is sent either; otherwise
    the request goes out. *)
Definition BulkDo (w : World) (t : list Event) (c : elastic.Client)
    (timeout : Z) (reqs : list elastic.BulkIndexRequest)
  : elastic.BulkResponse + error :=
  match reqs with
  | [] => inr (ClientError "elastic: No bulk actions to commit")
  | _ :: _ =>
      if decide (timeout ≤ 0)%Z then inr (BulkExpired w t c timeout reqs)
      else BulkSend w t c timeout reqs
  end.

(** Does the call behind an event put a bulk request on the wire? *)
Definition bulk_sent (ev : Event) : bool :=
  match ev with
  | EvBulkDo _ timeout (_ :: _) => bool_decide (0 < timeout)%Z
  | _ => false
  end.

(** A call either returns a value or panics; both leave a state. *)
Inductive Outcome (A : Type) : Type :=
| Returned (a : A) (s : State)
| Panicked (e : error) (s : State).

Arguments Returned {A} a s.
Arguments Panicked {A} e s.

Definition state_of {A} (o : Outcome A) : State :=
  match o with
  | Returned _ s => s
  | Panicked _ s => s
  end.

Definition value_of {A} (o : Outcome A) : option A :=
  match o with
  | Returned a _ => Some a
  | Panicked _ _ => None
  end.

(** The events a call added to the trace of the state it started in. *)
Definition emitted {A} (s : State) (o : Outcome A) : list Event :=
  drop (length (trace s)) (trace (state_of o)).

(** ** The monad of sink operations *)
Definition M (A : Type) : Type := World → State → Outcome A.

Definition ret {A} (a : A) : M A := λ _ s, Returned a s.

Definition bind {A B} (m : M A) (k : A → M B) : M B :=
  λ w s,
    match m w s with
    | Returned a s' => k a w s'
    | Panicked e s' => Panicked e s'
    end.

Definition panic {A} (e : error) : M A := λ _ s, Panicked e s.

Definition emit (ev : Event) : M unit :=
  λ _ s, Returned tt {| esClient := esClient s; trace := trace s ++ [ev] |}.

Definition read_esClient : M (option elastic.Client) :=
  λ _ s, Returned (esClient s) s.

Definition write_esClient (c : option elastic.Client) : M unit :=
  λ _ s, Returned tt {| esClient := c; trace := trace s |}.

(** Ask the world, after the call itself has been recorded. *)
Definition ask {A} (q : World → list Event → A) : M A :=
  λ w s, Returned (q w (trace s)) s.

Declare Scope sink_scope.
Delimit Scope sink_scope with sink.
Notation "'do' x <- m ; k" := (bind m (λ x, k))
  (at level 10, x name, m at level 100, k at level 200) : sink_scope.
Notation "m ;; k" := (bind m (λ _, k))
  (at level 100, k at level 200, right associativity) : sink_scope.
Open Scope sink_scope.

(** [level.Error(d.logger).Log("err", err, "message", msg)] and
    [level.Info(d.logger).Log("message", msg)]. *)
Definition log_error (err : error) (msg : string) : M unit :=
  emit (EvLog LevelError (Some err) msg).

Definition log_info (msg : string) : M unit :=
  emit (EvLog LevelInfo None msg).

(** ** The sink

    The struct [recordDatabase]; its [logger] is the trace, to which
    the log lines go.  A slice of records holds records, not nil
    pointers.  Go's [(value, error)] results are pairs whose error is
    [None] for nil. *)

Record recordDatabase : Type := {
  config : Config
}.

Definition NewDatabase (config : Config) : recordDatabase :=
  {| config := config |}.

Definition GetClient (d : recordDatabase) : M elastic.Client :=
  do c <- read_esClient;
  match c with
  | None =>
      emit (EvNewClient (Host (config d)));;
      do r <- ask (λ w t, NewClient w t (Host (config d)));
      match r with
      | inr err =>
          log_error err "could not init elasticsearch client";;
          panic err
      | inl client =>
          write_esClient (Some client);;
          ret client
      end
  | Some client => ret client
  end.

Definition CloseClient (d : recordDatabase) : M unit :=
  do c <- read_esClient;
  match c with
  | Some client =>
      emit (EvStop client);;
      write_esClient None
  | None => ret tt
  end.

Definition getDatabaseIndex (d : recordDatabase) (record : models.Record_)
  : M (string * option error) :=
  let indexPrefix := Index (config d) in
  let indexPrefix :=
    if decide (indexPrefix = "") then models.Topic record else indexPrefix in
  let indexColumn := IndexColumn (config d) in
  let indexSuffix := models.FormatTimestamp record in
  if decide (indexColumn ≠ "") then
    match models.GetValueForField record indexColumn with
    | (_, Some err) =>
        log_error err "Could not get column value from record.";;
        ret ("", Some err)
    | (newIndexSuffix, None) =>
        ret (fmt.Sprintf_s_dash_s indexPrefix newIndexSuffix, None)
    end
  else ret (fmt.Sprintf_s_dash_s indexPrefix indexSuffix, None).

Definition getDatabaseDocID (d : recordDatabase) (record : models.Record_)
  : M (string * option error) :=
  let docID := models.GetId record in
  let docIDColumn := DocIDColumn (config d) in
  if decide (docIDColumn ≠ "") then
    match models.GetValueForField record docIDColumn with
    | (_, Some err) =>
        log_error err "Could not get doc id value from record.";;
        ret ("", Some err)
    | (newDocID, None) => ret (newDocID, None)
    end
  else ret (docID, None).

(** The body of the [for ... range records] loop of [buildBulkRequest],
    with the bulk service built so far. *)
Fixpoint buildBulkRequest_loop (d : recordDatabase)
    (bulkRequest : elastic.BulkService) (records : list models.Record_)
  : M (option elastic.BulkService * option error) :=
  match records with
  | [] => ret (Some bulkRequest, None)
  | record :: rest =>
      do i <- getDatabaseIndex d record;
      match i with
      | (_, Some err) => ret (None, Some err)
      | (index, None) =>
          do k <- getDatabaseDocID d record;
          match k with
          | (_, Some err) => ret (None, Some err)
          | (docID, None) =>
              buildBulkRequest_loop d
                (elastic.Add bulkRequest
                   {| elastic.Index := index;
                      elastic.Type_ := models.Topic record;
                      elastic.Id := docID;
                      elastic.Doc :=
                        models.FilteredFieldsJSON record
                          (BlacklistedColumns (config d)) |})
                rest
          end
      end
  end.

Definition buildBulkRequest (d : recordDatabase)
    (records : list models.Record_)
  : M (option elastic.BulkService * option error) :=
  do c <- GetClient d;
  buildBulkRequest_loop d (elastic.Bulk c) records.

(** [bulkRequest.Do(ctx)] with the context built from [timeout]: the
    call is recorded and [BulkDo] gives the answer of the library; the
    deferred [cancel] leaves nothing to observe. *)
Definition Bulk_Do (b : elastic.BulkService) (timeout : Z)
  : M (elastic.BulkResponse + error) :=
  emit (EvBulkDo (elastic.client b) timeout (elastic.requests b));;
  ask (λ w t, BulkDo w t (elastic.client b) timeout (elastic.requests b)).

Definition Insert (d : recordDatabase) (records : list models.Record_)
  : M (option error) :=
  do b <- buildBulkRequest d records;
  match b with
  | (_, Some err) => ret (Some err)
  | (None, None) => panic (RuntimeError "nil pointer dereference")
  | (Some bulkRequest, None) =>
      let timeout := BulkTimeout (config d) in
      do r <- Bulk_Do bulkRequest timeout;
      match r with
      | inl res =>
          if elastic.Errors res then
            match elastic.Failed res with
            | f :: _ =>
                ret (Some (errors_New (fmt.Sprintf_v (elastic.Error f))))
            | [] => ret None
            end
          else ret None
      | inr err => ret (Some err)
      end
  end.

(** [d.GetClient().Ping(d.config.Host).Do(context.Background())]. *)
Definition Ping_Do (c : elastic.Client) (url : string)
  : M ((elastic.PingResult * Z) + error) :=
  emit (EvPingDo c url);;
  ask (λ w t, PingDo w t c url).

Definition ReadinessCheck (d : recordDatabase) : M bool :=
  do c <- GetClient d;
  do r <- Ping_Do c (Host (config d));
  match r with
  | inr err =>
      log_error err "error pinging elasticsearch";;
      ret false
  | inl (info, _) =>
      log_info (fmt.Sprintf_connected (elastic.Version_Number info));;
      ret true
  end.

(** ** The derivations as the specification words them *)

(** The prefix is the configured prefix, or the record's topic when no
    prefix is configured. *)
Definition spec_prefix (cfg : Config) (record : models.Record_) : string :=
  if String.eqb (Index cfg) "" then models.Topic record else Index cfg.

(** The suffix is the formatted timestamp, unless a suffix column is
    configured: then it is the value of that field, or [FieldNotFound]. *)
Definition spec_suffix (cfg : Config) (record : models.Record_)
  : string + error :=
  if String.eqb (IndexColumn cfg) "" then inl (models.Timestamp record)
  else
    match models.Fields record !! IndexColumn cfg with
    | Some v => inl v
    | None => inr (FieldNotFound (IndexColumn cfg))
    end.

(** The collection name is [<prefix>-<suffix>]. *)
Definition spec_collection_name (cfg : Config) (record : models.Record_)
  : string + error :=
  match spec_suffix cfg record with
  | inl suffix => inl (spec_prefix cfg record +:+ "-" +:+ suffix)
  | inr e => inr e
  end.

(** The key is the default identifier, unless a key column is
    configured: then it is the value of that field, or [FieldNotFound]. *)
Definition spec_document_key (cfg : Config) (record : models.Record_)
  : string + error :=
  if String.eqb (DocIDColumn cfg) "" then inl (models.Id record)
  else
    match models.Fields record !! DocIDColumn cfg with
    | Some v => inl v
    | None => inr (FieldNotFound (DocIDColumn cfg))
    end.

(** A value or an error as the Go result pair [(value, err)]; with an
    error the value is the empty string. *)
Definition go_result (r : string + error) : string * option error :=
  match r with
  | inl v => (v, None)
  | inr e => ("", Some e)
  end.

(** ** What a batch turns into

    The request a record contributes to the bulk, or the error of its
    derivation: the index name is derived first, the key second. *)
Definition request_for (cfg : Config) (record : models.Record_)
  : elastic.BulkIndexRequest + error :=
  match spec_collection_name cfg record with
  | inr e => inr e
  | inl index =>
      match spec_document_key cfg record with
      | inr e => inr e
      | inl docID =>
          inl {| elastic.Index := index;
                 elastic.Type_ := models.Topic record;
                 elastic.Id := docID;
                 elastic.Doc :=
                   models.FilteredFieldsJSON record (BlacklistedColumns cfg) |}
      end
  end.

(** The requests of a batch in order, or the error of the first record
    whose derivation fails. *)
Fixpoint requests_for (cfg : Config) (records : list models.Record_)
  : list elastic.BulkIndexRequest + error :=
  match records with
  | [] => inl []
  | record :: rest =>
      match request_for cfg record with
      | inr e => inr e
      | inl q =>
          match requests_for cfg rest with
          | inr e => inr e
          | inl qs => inl (q :: qs)
          end
      end
  end.

(** Does the derivation of the index name or of the key fail? *)
Definition derivation_fails (cfg : Config) (record : models.Record_) : bool :=
  match request_for cfg record with
  | inr _ => true
  | inl _ => false
  end.

(** The log lines of the derivations: one line for a failing index
    derivation, one for a failing key derivation, none otherwise; a
    batch logs the line of its first failing record. *)
Definition index_log (cfg : Config) (record : models.Record_) : list Event :=
  match spec_collection_name cfg record with
  | inr e => [EvLog LevelError (Some e) "Could not get column value from record."]
  | inl _ => []
  end.

Definition docID_log (cfg : Config) (record : models.Record_) : list Event :=
  match spec_document_key cfg record with
  | inr e => [EvLog LevelError (Some e) "Could not get doc id value from record."]
  | inl _ => []
  end.

Fixpoint batch_log (cfg : Config) (records : list models.Record_)
  : list Event :=
  match records with
  | [] => []
  | record :: rest =>
      match spec_collection_name cfg record with
      | inr _ => index_log cfg record
      | inl _ =>
          match spec_document_key cfg record with
          | inr _ => docID_log cfg record
          | inl _ => batch_log cfg rest
          end
      end
  end.

(** ** Classes of events *)

Definition is_log (ev : Event) : bool :=
  match ev with
  | EvLog _ _ _ => true
  | _ => false
  end.

Definition is_bulk (ev : Event) : bool :=
  match ev with
  | EvBulkDo _ _ _ => true
  | _ => false
  end.

Definition is_connect (ev : Event) : bool :=
  match ev with
  | EvNewClient _ => true
  | _ => false
  end.

(** The state after more events went out. *)
Definition extend (s : State) (evs : list Event) : State :=
  {| esClient := esClient s; trace := trace s ++ evs |}.

Definition is_quiet (ev : Event) : bool :=
  match ev with
  | EvNewClient _ | EvStop _ => false
  | _ => true
  end.

(** The handle an event goes to, if it goes to one. *)
Definition handle_of (ev : Event) : option elastic.Client :=
  match ev with
  | EvStop c | EvBulkDo c _ _ | EvPingDo c _ => Some c
  | _ => None
  end.

(** ** What [Insert] makes of the answer to its bulk call

    A transport error is handed on; a response with the error flag set
    yields the error of the first failed item, if there is one. *)
Definition bulk_verdict (r : elastic.BulkResponse + error) : option error :=
  match r with
  | inr err => Some err
  | inl res =>
      if elastic.Errors res then
        match elastic.Failed res with
        | f :: _ => Some (errors_New (fmt.Sprintf_v (elastic.Error f)))
        | [] => None
        end
      else None
  end.

(** ** The connection lifecycle as the specification words it

    Two states; a use from [DISCONNECTED] attempts to connect, success
    leads to [CONNECTED], failure is fatal ([None]); a use from
    [CONNECTED] keeps the handle; a close leads to [DISCONNECTED]. *)
Inductive ConnState : Type :=
| DISCONNECTED
| CONNECTED (c : elastic.Client).

Definition conn_state (s : State) : ConnState :=
  match esClient s with
  | None => DISCONNECTED
  | Some c => CONNECTED c
  end.

Definition spec_use (answer : elastic.Client + error) (cs : ConnState)
  : option ConnState :=
  match cs with
  | CONNECTED c => Some (CONNECTED c)
  | DISCONNECTED =>
      match answer with
      | inl c => Some (CONNECTED c)
      | inr _ => None
      end
  end.

Definition spec_close (cs : ConnState) : ConnState := DISCONNECTED.

(** The connect attempts a use is to make: one from [DISCONNECTED],
    none from [CONNECTED]. *)
Definition spec_connects (url : string) (cs : ConnState) : list Event :=
  match cs with
  | DISCONNECTED => [EvNewClient url]
  | CONNECTED _ => []
  end.

(** The answer of the world to a connect attempt made in state [s]. *)
Definition connect_answer (d : recordDatabase) (w : World) (s : State)
  : elastic.Client + error :=
  NewClient w (trace s ++ [EvNewClient (Host (config d))]) (Host (config d)).

(** ** Live connections

    A handle is live from the moment [elastic.NewClient] hands it out
    until it is stopped.  [live w t] replays the trace [t] against the
    world [w] and lists the live handles. *)
Fixpoint remove_first (c : elastic.Client) (l : list elastic.Client)
  : list elastic.Client :=
  match l with
  | [] => []
  | x :: rest =>
      if elastic.Client_eqb c x then rest else x :: remove_first c rest
  end.

Definition live_step (w : World) (seen : list Event) (ev : Event)
    (acc : list elastic.Client) : list elastic.Client :=
  match ev with
  | EvNewClient url =>
      match NewClient w seen url with
      | inl c => acc ++ [c]
      | inr _ => acc
      end
  | EvStop c => remove_first c acc
  | _ => acc
  end.

Fixpoint live_from (w : World) (seen evs : list Event)
    (acc : list elastic.Client) : list elastic.Client :=
  match evs with
  | [] => acc
  | ev :: rest =>
      live_from w (seen ++ [ev]) rest (live_step w (seen ++ [ev]) ev acc)
  end.

Definition live (w : World) (t : list Event) : list elastic.Client :=
  live_from w [] t [].

(** The live handles are exactly the one held in [esClient], if any. *)
Definition one_connection (w : World) (s : State) : Prop :=
  live w (trace s) = option_list (esClient s).

(** ** Calls from the orchestrator

    The operations of the interface [RecordDatabase]; every call names
    the sink instance it goes to, all instances share [esClient]. *)
Inductive Op : Type :=
| OpGetClient
| OpCloseClient
| OpInsert (records : list models.Record_)
| OpReadinessCheck.

Definition run_op (d : recordDatabase) (op : Op) : M unit :=
  match op with
  | OpGetClient => GetClient d;; ret tt
  | OpCloseClient => CloseClient d
  | OpInsert records => Insert d records;; ret tt
  | OpReadinessCheck => ReadinessCheck d;; ret tt
  end.

Fixpoint run_ops (ops : list (recordDatabase * Op)) : M unit :=
  match ops with
  | [] => ret tt
  | (d, op) :: rest => run_op d op;; run_ops rest
  end.

(** The process starts with [esClient] nil and nothing sent. *)
Definition s_init : State := {| esClient := None; trace := [] |}.

(** ** Sample data: the scenarios of the specification *)

Definition cfg_default : Config :=
  {| Host := "http://localhost:9200"; Index := ""; IndexColumn := "";
     DocIDColumn := ""; BlacklistedColumns := []; BulkTimeout := 10000000000 |}.

Definition cfg_custom : Config :=
  {| Host := "http://localhost:9200"; Index := "custom";
     IndexColumn := "region"; DocIDColumn := "";
     BlacklistedColumns := ["secret"]; BulkTimeout := 10000000000 |}.

Definition cfg_missing : Config :=
  {| Host := "http://localhost:9200"; Index := "";
     IndexColumn := "missing_field"; DocIDColumn := "";
     BlacklistedColumns := []; BulkTimeout := 10000000000 |}.

Definition cfg_keyed : Config :=
  {| Host := "http://localhost:9200"; Index := ""; IndexColumn := "";
     DocIDColumn := "order_id"; BlacklistedColumns := [];
     BulkTimeout := 10000000000 |}.

Definition rec_orders : models.Record_ :=
  {| models.Topic := "orders"; models.Timestamp := "2024-01-01";
     models.Fields := {[ "region" := "us-east" ]} ∪ {[ "secret" := "s3" ]};
     models.Id := "42" |}.

Definition rec_payments : models.Record_ :=
  {| models.Topic := "payments"; models.Timestamp := "2024-01-02";
     models.Fields := {[ "region" := "eu-west" ]};
     models.Id := "43" |}.

Definition client0 : elastic.Client := elastic.ClientHandle 0.

Definition s_connected : State := {| esClient := Some client0; trace := [] |}.

Definition item_created (q : elastic.BulkIndexRequest)
  : elastic.BulkResponseItem :=
  {| elastic.ItemIndex := elastic.Index q; elastic.ItemId := elastic.Id q;
     elastic.Status := 201; elastic.Error := None |}.

Definition item_failed (q : elastic.BulkIndexRequest) (status : Z)
    (type reason : string) : elastic.BulkResponseItem :=
  {| elastic.ItemIndex := elastic.Index q; elastic.ItemId := elastic.Id q;
     elastic.Status := status;
     elastic.Error :=
       Some {| elastic.ErrType := type; elastic.Reason := reason;
               elastic.ResourceType := ""; elastic.ResourceId := "";
               elastic.ErrIndex := ""; elastic.Phase := "";
               elastic.Grouped := false; elastic.CausedBy := [];
               elastic.RootCause := []; elastic.FailedShards := [] |} |}.

(** A reachable datastore that stores every document. *)
Definition w_up : World :=
  {| NewClient := λ t _, inl (elastic.ClientHandle (length t));
     BulkExpired := λ _ _ _ _, ClientError "context deadline exceeded";
     BulkSend := λ _ _ _ reqs,
       inl {| elastic.Errors := false;
              elastic.Items := item_created <$> reqs |};
     PingDo := λ _ _ _, inl ({| elastic.Version_Number := "6.8.0" |}, 200) |}.

(** An unreachable endpoint. *)
Definition w_down : World :=
  {| NewClient := λ _ _, inr (ClientError "no Elasticsearch node available");
     BulkExpired := λ _ _ _ _, ClientError "context deadline exceeded";
     BulkSend := λ _ _ _ _, inr (ClientError "connection refused");
     PingDo := λ _ _ _, inr (ClientError "connection refused") |}.

(** A datastore that rejects every document of a bulk. *)
Definition w_rejecting : World :=
  {| NewClient := λ t _, inl (elastic.ClientHandle (length t));
     BulkExpired := λ _ _ _ _, ClientError "context deadline exceeded";
     BulkSend := λ _ _ _ reqs,
       inl {| elastic.Errors := true;
              elastic.Items :=
                (λ q, item_failed q 400 "mapper_parsing_exception"
                        ("failed to parse " +:+ elastic.Id q)) <$> reqs |};
     PingDo := λ _ _ _, inl ({| elastic.Version_Number := "6.8.0" |}, 200) |}.

(** A datastore whose response sets the error flag although every item
    was created. *)
Definition w_flag_only : World :=
  {| NewClient := λ t _, inl (elastic.ClientHandle (length t));
     BulkExpired := λ _ _ _ _, ClientError "context deadline exceeded";
     BulkSend := λ _ _ _ reqs,
       inl {| elastic.Errors := true;
              elastic.Items := item_created <$> reqs |};
     PingDo := λ _ _ _, inl ({| elastic.Version_Number := "6.8.0" |}, 200) |}.

Definition batch_sample : list models.Record_ := [rec_orders; rec_payments].

(** The requests of the sample batch under the default configuration. *)
Definition qs_sample : list elastic.BulkIndexRequest :=
  match requests_for cfg_default batch_sample with
  | inl qs => qs
  | inr _ => []
  end.

(** The request of [rec_orders] under the custom configuration. *)
Definition qs_custom : list elastic.BulkIndexRequest :=
  match requests_for cfg_custom [rec_orders] with
  | inl qs => qs
  | inr _ => []
  end.

Definition client1 : elastic.Client := elastic.ClientHandle 1.

(** The state after the first connect to [w_up] and its like. *)
Definition s_connected1 : State :=
  {| esClient := Some client1;
     trace := [EvNewClient "http://localhost:9200"] |}.

Definition res_rejected : elastic.BulkResponse :=
  {| elastic.Errors := true;
     elastic.Items :=
       (λ q, item_failed q 400 "mapper_parsing_exception"
               ("failed to parse " +:+ elastic.Id q)) <$> qs_sample |}.

Definition res_flag_only : elastic.BulkResponse :=
  {| elastic.Errors := true; elastic.Items := item_created <$> qs_sample |}.

Definition f_orders : elastic.BulkResponseItem :=
  {| elastic.ItemIndex := "orders-2024-01-01"; elastic.ItemId := "42";
     elastic.Status := 400;
     elastic.Error :=
       Some {| elastic.ErrType := "mapper_parsing_exception";
               elastic.Reason := "failed to parse 42";
               elastic.ResourceType := ""; elastic.ResourceId := "";
               elastic.ErrIndex := ""; elastic.Phase := "";
               elastic.Grouped := false; elastic.CausedBy := [];
               elastic.RootCause := []; elastic.FailedShards := [] |} |}.

Definition f_payments : elastic.BulkResponseItem :=
  {| elastic.ItemIndex := "payments-2024-01-02"; elastic.ItemId := "43";
     elastic.Status := 400;
     elastic.Error :=
       Some {| elastic.ErrType := "mapper_parsing_exception";
               elastic.Reason := "failed to parse 43";
               elastic.ResourceType := ""; elastic.ResourceId := "";
               elastic.ErrIndex := ""; elastic.Phase := "";
               elastic.Grouped := false; elastic.CausedBy := [];
               elastic.RootCause := []; elastic.FailedShards := [] |} |}.

Definition sink_default : recordDatabase := NewDatabase cfg_default.

(** ** Further classes of events and further sample data *)

Definition is_ping (ev : Event) : bool :=
  match ev with
  | EvPingDo _ _ => true
  | _ => false
  end.

Definition is_stop (ev : Event) : bool :=
  match ev with
  | EvStop _ => true
  | _ => false
  end.

(** The two messages of the derivation log lines. *)
Definition index_message : string := "Could not get column value from record.".

Definition docID_message : string := "Could not get doc id value from record.".

(** A sink configured for another endpoint. *)
Definition cfg_other : Config :=
  {| Host := "http://other:9200"; Index := ""; IndexColumn := "";
     DocIDColumn := ""; BlacklistedColumns := []; BulkTimeout := 5000000000 |}.

Definition sink_other : recordDatabase := NewDatabase cfg_other.

(** The suffix column is itself blacklisted. *)
Definition cfg_hidden : Config :=
  {| Host := "http://localhost:9200"; Index := "custom";
     IndexColumn := "region"; DocIDColumn := "";
     BlacklistedColumns := ["region"]; BulkTimeout := 10000000000 |}.

Definition qs_hidden : list elastic.BulkIndexRequest :=
  match requests_for cfg_hidden [rec_orders] with
  | inl qs => qs
  | inr _ => []
  end.

(** A record without the field [region]. *)
Definition rec_bare : models.Record_ :=
  {| models.Topic := "audit"; models.Timestamp := "2024-01-03";
     models.Fields := {[ "user" := "root" ]};
     models.Id := "44" |}.

Definition res_unflagged : elastic.BulkResponse :=
  {| elastic.Errors := false;
     elastic.Items :=
       (λ q, item_failed q 400 "mapper_parsing_exception"
               ("failed to parse " +:+ elastic.Id q)) <$> qs_sample |}.

(** A datastore that rejects every document but leaves the error flag
    of its response unset. *)
Definition w_unflagged : World :=
  {| NewClient := λ t _, inl (elastic.ClientHandle (length t));
     BulkExpired := λ _ _ _ _, ClientError "context deadline exceeded";
     BulkSend := λ _ _ _ reqs,
       inl {| elastic.Errors := false;
              elastic.Items :=
                (λ q, item_failed q 400 "mapper_parsing_exception"
                        ("failed to parse " +:+ elastic.Id q)) <$> reqs |};
     PingDo := λ _ _ _, inl ({| elastic.Version_Number := "6.8.0" |}, 200) |}.

(** A datastore that connects but whose bulk call times out. *)
Definition w_timeout : World :=
  {| NewClient := λ t _, inl (elastic.ClientHandle (length t));
     BulkExpired := λ _ _ _ _, ClientError "context deadline exceeded";
     BulkSend := λ _ _ _ _, inr (ClientError "context deadline exceeded");
     PingDo := λ _ _ _, inl ({| elastic.Version_Number := "6.8.0" |}, 200) |}.

(** ** Calls on live handles

    [targets_live w t] replays the trace [t] as [live] does and checks
    that every event that goes to a handle (a stop, a bulk call, a ping)
    goes to a handle that is live at that moment. *)
Fixpoint targets_live_from (w : World) (seen evs : list Event)
    (acc : list elastic.Client) : bool :=
  match evs with
  | [] => true
  | ev :: rest =>
      match handle_of ev with
      | Some c => existsb (elastic.Client_eqb c) acc
      | None => true
      end
      && targets_live_from w (seen ++ [ev]) rest
           (live_step w (seen ++ [ev]) ev acc)
  end.

Definition targets_live (w : World) (t : list Event) : bool :=
  targets_live_from w [] t [].

(** The request of [rec_orders] under the default configuration. *)
Definition qs_custom_free : list elastic.BulkIndexRequest :=
  match requests_for cfg_default [rec_orders] with
  | inl qs => qs
  | inr _ => []
  end.

(** ** Basic facts about states and traces *)

Lemma extend_nil (s : State) : extend s [] = s.
Proof. destruct s; unfold extend; simpl. by rewrite app_nil_r. Qed.

Lemma extend_extend (s : State) (evs1 evs2 : list Event) :
  extend (extend s evs1) evs2 = extend s (evs1 ++ evs2).
Proof. unfold extend; simpl. by rewrite app_assoc. Qed.

Lemma emitted_trace {A} (s : State) (o : Outcome A) (evs : list Event) :
  trace (state_of o) = trace s ++ evs → emitted s o = evs.
Proof. intros H. unfold emitted. rewrite H. by rewrite drop_app_length. Qed.

Lemma log_not_bulk (evs : list Event) :
  forallb is_log evs = true → forallb (λ ev, negb (is_bulk ev)) evs = true.
Proof.
  induction evs as [|ev evs IH]; simpl; [done|].
  intros [H1 H2]%andb_prop. rewrite (IH H2). by destruct ev.
Qed.

Lemma log_quiet (evs : list Event) :
  forallb is_log evs = true → forallb is_quiet evs = true.
Proof.
  induction evs as [|ev evs IH]; simpl; [done|].
  intros [H1 H2]%andb_prop. rewrite (IH H2). by destruct ev.
Qed.

Lemma no_bulk_elem (evs : list Event) (c : elastic.Client) (t : Z)
    (reqs : list elastic.BulkIndexRequest) :
  forallb (λ ev, negb (is_bulk ev)) evs = true → EvBulkDo c t reqs ∉ evs.
Proof.
  intros H Hin. apply list_elem_of_In in Hin.
  rewrite forallb_forall in H. by specialize (H _ Hin).
Qed.

Lemma eqb_empty_decide {A} (x : string) (a b : A) :
  (if String.eqb x "" then a else b) = (if decide (x = "") then a else b).
Proof.
  destruct (String.eqb_spec x ""); destruct (decide (x = "")); congruence.
Qed.

(** ** Derivation of the index name and of the document id *)

Section Derivation.

Variable d : recordDatabase.
Variable record : models.Record_.

Lemma lookup_GetValueForField (field : string) :
  models.GetValueForField record field =
  go_result (match models.Fields record !! field with
             | Some v => inl v
             | None => inr (FieldNotFound field)
             end).
Proof.
  unfold models.GetValueForField.
  destruct (models.Fields record !! field); reflexivity.
Qed.

(** The index derivation never panics and never touches the client
    handle; it only adds log lines. *)
Lemma getDatabaseIndex_returns (w : World) (s : State) :
  getDatabaseIndex d record w s
  = Returned (go_result (spec_collection_name (config d) record))
      (extend s (index_log (config d) record)).
Proof.
  unfold index_log.
  unfold getDatabaseIndex, spec_collection_name, spec_suffix, spec_prefix.
  rewrite !eqb_empty_decide.
  destruct (decide (IndexColumn (config d) = "")) as [Hc|Hc].
  - rewrite decide_False by tauto. by rewrite extend_nil.
  - rewrite decide_True by assumption.
    rewrite lookup_GetValueForField.
    destruct (models.Fields record !! IndexColumn (config d)).
    + by rewrite extend_nil.
    + reflexivity.
Qed.

Lemma getDatabaseDocID_returns (w : World) (s : State) :
  getDatabaseDocID d record w s
  = Returned (go_result (spec_document_key (config d) record))
      (extend s (docID_log (config d) record)).
Proof.
  unfold docID_log.
  unfold getDatabaseDocID, spec_document_key.
  rewrite eqb_empty_decide.
  destruct (decide (DocIDColumn (config d) = "")) as [Hc|Hc].
  - rewrite decide_False by tauto. by rewrite extend_nil.
  - rewrite decide_True by assumption.
    rewrite lookup_GetValueForField.
    destruct (models.Fields record !! DocIDColumn (config d)).
    + by rewrite extend_nil.
    + reflexivity.
Qed.

(** C1: for every record and configuration the derived index name is
    ["<prefix>-<suffix>"], the prefix being the configured one or the
    topic when the configured one is empty, the suffix being the
    formatted timestamp or, with a suffix column configured, the value
    of that field; a record lacking that field gives [FieldNotFound]. *)
Theorem getDatabaseIndex_collection_name (w : World) (s : State) :
  value_of (getDatabaseIndex d record w s)
  = Some (go_result (spec_collection_name (config d) record)).
Proof.
  by rewrite getDatabaseIndex_returns.
Qed.

(** C2: for every record and configuration the derived document key is
    the record's default identifier or, with a non-empty key column
    configured, the value of that field; a record lacking that field
    gives [FieldNotFound]. *)
Theorem getDatabaseDocID_document_key (w : World) (s : State) :
  value_of (getDatabaseDocID d record w s)
  = Some (go_result (spec_document_key (config d) record)).
Proof.
  by rewrite getDatabaseDocID_returns.
Qed.

(** C8: both derivations are functions of the record and the
    configuration alone: run in any two worlds and states, and run
    twice in a row, they return, and return the same index name, the
    same key and the same error. *)
Theorem derivation_pure (w1 w2 : World) (s1 s2 : State) :
  (∃ r, value_of (getDatabaseIndex d record w1 s1) = Some r
        ∧ value_of (getDatabaseIndex d record w2 s2) = Some r
        ∧ value_of (getDatabaseIndex d record w2
                      (state_of (getDatabaseIndex d record w1 s1))) = Some r)
  ∧ (∃ k, value_of (getDatabaseDocID d record w1 s1) = Some k
          ∧ value_of (getDatabaseDocID d record w2 s2) = Some k
          ∧ value_of (getDatabaseDocID d record w2
                        (state_of (getDatabaseDocID d record w1 s1))) = Some k).
Proof.
  split.
  - exists (go_result (spec_collection_name (config d) record)).
    by rewrite !getDatabaseIndex_returns.
  - exists (go_result (spec_document_key (config d) record)).
    by rewrite !getDatabaseDocID_returns.
Qed.

End Derivation.

(** The scenarios of the specification. *)
Example scenario_default :
  value_of (getDatabaseIndex (NewDatabase cfg_default) rec_orders w_up s_init)
  = Some ("orders-2024-01-01", None)
  ∧ value_of (getDatabaseDocID (NewDatabase cfg_default) rec_orders w_up s_init)
    = Some ("42", None).
Proof. split; vm_compute; reflexivity. Qed.

Example scenario_custom :
  value_of (getDatabaseIndex (NewDatabase cfg_custom) rec_orders w_up s_init)
  = Some ("custom-us-east", None)
  ∧ value_of (getDatabaseDocID (NewDatabase cfg_custom) rec_orders w_up s_init)
    = Some ("42", None).
Proof. split; vm_compute; reflexivity. Qed.

Example scenario_missing :
  value_of (getDatabaseIndex (NewDatabase cfg_missing) rec_orders w_up s_init)
  = Some ("", Some (FieldNotFound "missing_field"))
  ∧ value_of (getDatabaseDocID (NewDatabase cfg_keyed) rec_orders w_up s_init)
    = Some ("", Some (FieldNotFound "order_id")).
Proof. split; vm_compute; reflexivity. Qed.

(** ** The client handle *)

Section Connection.

Variable d : recordDatabase.
Variable w : World.

Lemma GetClient_connected (s : State) (c : elastic.Client) :
  esClient s = Some c → GetClient d w s = Returned c s.
Proof. intros H. unfold GetClient, bind, read_esClient. by rewrite H. Qed.

Lemma GetClient_connects (s : State) (c : elastic.Client) :
  esClient s = None → connect_answer d w s = inl c →
  GetClient d w s
  = Returned c {| esClient := Some c;
                  trace := trace s ++ [EvNewClient (Host (config d))] |}.
Proof.
  intros H Ha. unfold connect_answer in Ha.
  unfold GetClient, bind, read_esClient. rewrite H. simpl. by rewrite Ha.
Qed.

Lemma GetClient_fatal (s : State) (e : error) :
  esClient s = None → connect_answer d w s = inr e →
  GetClient d w s
  = Panicked e
      (extend s [EvNewClient (Host (config d));
                 EvLog LevelError (Some e)
                   "could not init elasticsearch client"]).
Proof.
  intros H Ha. unfold connect_answer in Ha.
  unfold GetClient, bind, read_esClient. rewrite H. simpl. rewrite Ha. simpl.
  unfold extend. simpl. by rewrite <- app_assoc.
Qed.

(** Whatever happens, [GetClient] adds to the trace the connect attempts
    the lifecycle asks for, and log lines. *)
Lemma GetClient_trace (s : State) :
  ∃ evs : list Event, trace (state_of (GetClient d w s)) = trace s ++ evs
    ∧ filter is_connect evs = spec_connects (Host (config d)) (conn_state s)
    ∧ forallb (λ ev, negb (is_bulk ev)) evs = true.
Proof.
  unfold conn_state.
  destruct (esClient s) as [c|] eqn:Hc.
  - rewrite (GetClient_connected s c Hc). exists []. simpl.
    by rewrite app_nil_r.
  - destruct (connect_answer d w s) as [c|e] eqn:Ha.
    + rewrite (GetClient_connects s c Hc Ha). eexists [_]. simpl. done.
    + rewrite (GetClient_fatal s e Hc Ha). eexists [_; _]. simpl. done.
Qed.

End Connection.

(** ** Building the bulk request *)

Section Bulk.

Variable d : recordDatabase.

Lemma batch_log_is_log (records : list models.Record_) :
  forallb is_log (batch_log (config d) records) = true.
Proof.
  induction records as [|record rest IH]; simpl; [done|].
  unfold index_log, docID_log.
  destruct (spec_collection_name (config d) record); [|done].
  by destruct (spec_document_key (config d) record).
Qed.

Lemma batch_log_success (records : list models.Record_)
    (qs : list elastic.BulkIndexRequest) :
  requests_for (config d) records = inl qs → batch_log (config d) records = [].
Proof.
  revert qs. induction records as [|record rest IH]; intros qs; simpl; [done|].
  unfold request_for.
  destruct (spec_collection_name (config d) record); [|done].
  destruct (spec_document_key (config d) record); [|done].
  destruct (requests_for (config d) rest); [|done].
  intros _. by eapply IH.
Qed.

(** The loop returns the requests of the batch appended to the service,
    or the first derivation error; it adds log lines only. *)
Lemma buildBulkRequest_loop_returns (records : list models.Record_) :
  ∀ (b : elastic.BulkService) (w : World) (s : State),
  buildBulkRequest_loop d b records w s
  = Returned
      (match requests_for (config d) records with
       | inl qs =>
           (Some {| elastic.client := elastic.client b;
                    elastic.requests := elastic.requests b ++ qs |}, None)
       | inr e => (None, Some e)
       end)
      (extend s (batch_log (config d) records)).
Proof.
  induction records as [|record rest IH]; intros b w s.
  - simpl. rewrite extend_nil, app_nil_r. by destruct b.
  - simpl. unfold bind, request_for.
    rewrite getDatabaseIndex_returns. unfold index_log.
    destruct (spec_collection_name (config d) record) as [index|e]; simpl;
      [|done].
    rewrite getDatabaseDocID_returns. unfold docID_log.
    destruct (spec_document_key (config d) record) as [docID|e]; simpl;
      [|by rewrite extend_extend].
    rewrite IH, !extend_extend. simpl.
    destruct (requests_for (config d) rest) as [qs|e]; simpl; [|done].
    by rewrite <- app_assoc.
Qed.

Lemma buildBulkRequest_returns (records : list models.Record_)
    (w : World) (s s1 : State) (c : elastic.Client) :
  GetClient d w s = Returned c s1 →
  buildBulkRequest d records w s
  = Returned
      (match requests_for (config d) records with
       | inl qs =>
           (Some {| elastic.client := c; elastic.requests := qs |}, None)
       | inr e => (None, Some e)
       end)
      (extend s1 (batch_log (config d) records)).
Proof.
  intros Hc. unfold buildBulkRequest, bind. rewrite Hc.
  by rewrite buildBulkRequest_loop_returns.
Qed.

Lemma buildBulkRequest_panics (records : list models.Record_)
    (w : World) (s s1 : State) (e : error) :
  GetClient d w s = Panicked e s1 →
  buildBulkRequest d records w s = Panicked e s1.
Proof. intros Hc. unfold buildBulkRequest, bind. by rewrite Hc. Qed.

(** [Insert], case by case. *)
Lemma Insert_panics (records : list models.Record_)
    (w : World) (s s1 : State) (e : error) :
  GetClient d w s = Panicked e s1 →
  Insert d records w s = Panicked e s1.
Proof.
  intros Hc. unfold Insert, bind.
  by rewrite (buildBulkRequest_panics records w s s1 e Hc).
Qed.

Lemma Insert_aborts (records : list models.Record_)
    (w : World) (s s1 : State) (c : elastic.Client) (e : error) :
  GetClient d w s = Returned c s1 →
  requests_for (config d) records = inr e →
  Insert d records w s
  = Returned (Some e) (extend s1 (batch_log (config d) records)).
Proof.
  intros Hc Hr. unfold Insert, bind.
  rewrite (buildBulkRequest_returns records w s s1 c Hc).
  by rewrite Hr.
Qed.

Lemma Insert_submits (records : list models.Record_)
    (w : World) (s s1 : State) (c : elastic.Client)
    (qs : list elastic.BulkIndexRequest) :
  GetClient d w s = Returned c s1 →
  requests_for (config d) records = inl qs →
  let s2 := extend s1 [EvBulkDo c (BulkTimeout (config d)) qs] in
  Insert d records w s
  = Returned
      (bulk_verdict (BulkDo w (trace s2) c (BulkTimeout (config d)) qs)) s2.
Proof.
  intros Hc Hr. unfold Insert, bind.
  rewrite (buildBulkRequest_returns records w s s1 c Hc).
  rewrite Hr, (batch_log_success records qs Hr), extend_nil. simpl.
  unfold Bulk_Do, bind, emit, ask. simpl.
  destruct (BulkDo w _ c (BulkTimeout (config d)) qs) as [res|err]; simpl;
    [|done].
  destruct (elastic.Errors res); [|done].
  by destruct (elastic.Failed res).
Qed.

End Bulk.

(** ** Batches and their requests *)

Section Batches.

Variable cfg : Config.

Lemma request_for_error (record : models.Record_) (e : error) :
  request_for cfg record = inr e →
  e = FieldNotFound (IndexColumn cfg) ∨ e = FieldNotFound (DocIDColumn cfg).
Proof.
  unfold request_for, spec_collection_name, spec_suffix, spec_document_key.
  destruct (String.eqb (IndexColumn cfg) "").
  - destruct (String.eqb (DocIDColumn cfg) ""); [done|].
    destruct (models.Fields record !! DocIDColumn cfg); [done|].
    intros [= <-]. by right.
  - destruct (models.Fields record !! IndexColumn cfg).
    + destruct (String.eqb (DocIDColumn cfg) ""); [done|].
      destruct (models.Fields record !! DocIDColumn cfg); [done|].
      intros [= <-]. by right.
    + intros [= <-]. by left.
Qed.

Lemma requests_for_first_error (records : list models.Record_) (e : error) :
  requests_for cfg records = inr e →
  ∃ pre r post, records = pre ++ r :: post
    ∧ existsb (derivation_fails cfg) pre = false
    ∧ request_for cfg r = inr e.
Proof.
  induction records as [|record rest IH]; simpl; [done|].
  destruct (request_for cfg record) as [q|e'] eqn:Hq.
  - destruct (requests_for cfg rest) as [qs|e'']; [done|].
    intros [= ->]. destruct (IH eq_refl) as (pre & r & post & -> & Hpre & Hr).
    exists (record :: pre), r, post. simpl. unfold derivation_fails at 1.
    by rewrite Hq.
  - intros [= ->]. by exists [], record, rest.
Qed.

Lemma requests_for_fails (records : list models.Record_) :
  existsb (derivation_fails cfg) records = true →
  ∃ e, requests_for cfg records = inr e.
Proof.
  induction records as [|record rest IH]; simpl; [done|].
  unfold derivation_fails at 1.
  destruct (request_for cfg record) as [q|e]; simpl; [|by eexists].
  intros H. destruct (IH H) as (e & ->). by eexists.
Qed.

Lemma requests_for_each (records : list models.Record_)
    (qs : list elastic.BulkIndexRequest) :
  requests_for cfg records = inl qs →
  Forall2 (λ record q, request_for cfg record = inl q) records qs.
Proof.
  revert qs. induction records as [|record rest IH]; intros qs; simpl.
  - intros [= <-]. constructor.
  - destruct (request_for cfg record) as [q|e] eqn:Hq; [|done].
    destruct (requests_for cfg rest) as [qs'|e]; [|done].
    intros [= <-]. constructor; [done|]. by apply IH.
Qed.

Lemma request_for_body (record : models.Record_)
    (q : elastic.BulkIndexRequest) (k : string) :
  request_for cfg record = inl q →
  elastic.Doc q !! k
  = if decide (k ∈ BlacklistedColumns cfg) then None
    else models.Fields record !! k.
Proof.
  unfold request_for.
  destruct (spec_collection_name cfg record); [|done].
  destruct (spec_document_key cfg record); [|done].
  intros [= <-]. simpl. unfold models.FilteredFieldsJSON.
  rewrite map_lookup_filter.
  destruct (models.Fields record !! k) as [v|] eqn:Hk; simpl.
  - destruct (decide (k ∈ BlacklistedColumns cfg)).
    + rewrite option_guard_False; [done|]. simpl. tauto.
    + by rewrite option_guard_True.
  - by destruct (decide (k ∈ BlacklistedColumns cfg)).
Qed.

End Batches.

(** ** What [GetClient] adds to the trace *)

Lemma connect_or_log_not_sent (evs : list Event) :
  forallb (λ ev, is_connect ev || is_log ev) evs = true →
  existsb bulk_sent evs = false.
Proof.
  induction evs as [|ev evs IH]; simpl; [done|].
  intros [H1 H2]%andb_prop. rewrite (IH H2). by destruct ev.
Qed.

Lemma GetClient_connect_or_log (d : recordDatabase) (w : World) (s : State) :
  forallb (λ ev, is_connect ev || is_log ev) (emitted s (GetClient d w s))
  = true.
Proof.
  destruct (esClient s) as [c|] eqn:Hc.
  - rewrite (GetClient_connected d w s c Hc).
    by rewrite (emitted_trace s (Returned c s) [])
      by (simpl; by rewrite app_nil_r).
  - destruct (connect_answer d w s) as [c|e] eqn:Ha.
    + rewrite (GetClient_connects d w s c Hc Ha).
      by erewrite emitted_trace by (simpl; reflexivity).
    + rewrite (GetClient_fatal d w s e Hc Ha).
      by erewrite emitted_trace by (simpl; reflexivity).
Qed.

(** ** [Insert] *)

Section InsertProperties.

Variable d : recordDatabase.
Variable w : World.

(** What [Insert] adds to the trace, whatever the outcome of
    [GetClient]. *)
Lemma Insert_emitted (records : list models.Record_) (s : State) :
  ∃ evs : list Event,
    forallb (λ ev, negb (is_bulk ev)) evs = true
    ∧ match GetClient d w s, requests_for (config d) records with
      | Returned c _, inl qs =>
          emitted s (Insert d records w s)
          = evs ++ [EvBulkDo c (BulkTimeout (config d)) qs]
      | _, _ => emitted s (Insert d records w s) = evs
      end.
Proof.
  destruct (GetClient_trace d w s) as (evs & Ht & _ & Hb).
  destruct (GetClient d w s) as [c s1|e s1] eqn:Hc; simpl in Ht.
  - destruct (requests_for (config d) records) as [qs|e] eqn:Hr.
    + exists evs. split; [done|]. apply emitted_trace.
      rewrite (Insert_submits d records w s s1 c qs Hc Hr). simpl.
      by rewrite Ht, <- app_assoc.
    + exists (evs ++ batch_log (config d) records). split.
      * rewrite forallb_app, Hb. simpl.
        apply log_not_bulk, batch_log_is_log.
      * apply emitted_trace.
        rewrite (Insert_aborts d records w s s1 c e Hc Hr). simpl.
        by rewrite Ht, <- app_assoc.
  - exists evs. split; [done|]. apply emitted_trace.
    by rewrite (Insert_panics d records w s s1 e Hc).
Qed.

(** C3: when the derivation of the index name or of the key fails for
    some record of the batch, no bulk request goes out.  [Insert]
    obtains the client handle before it derives anything: with the
    handle obtained it returns the derivation error of the first
    failing record, a [FieldNotFound] of a configured column; when the
    handle has to be created and the connect fails, it panics with the
    connect error instead. *)
Theorem Insert_derivation_failure (records : list models.Record_) (s : State) :
  existsb (derivation_fails (config d)) records = true →
  forallb (λ ev, negb (is_bulk ev)) (emitted s (Insert d records w s)) = true
  ∧ (∀ c s1, GetClient d w s = Returned c s1 →
      ∃ e pre r post,
        records = pre ++ r :: post
        ∧ existsb (derivation_fails (config d)) pre = false
        ∧ request_for (config d) r = inr e
        ∧ (e = FieldNotFound (IndexColumn (config d))
           ∨ e = FieldNotFound (DocIDColumn (config d)))
        ∧ value_of (Insert d records w s) = Some (Some e))
  ∧ (∀ e s1, GetClient d w s = Panicked e s1 →
      Insert d records w s = Panicked e s1).
Proof.
  intros Hf. destruct (requests_for_fails _ _ Hf) as (e & He).
  split; [|split].
  - destruct (Insert_emitted records s) as (evs & Hb & Hem).
    rewrite He in Hem.
    destruct (GetClient d w s); by rewrite Hem.
  - intros c s1 Hc.
    destruct (requests_for_first_error _ _ _ He) as (pre & r & post & ? & ? & Hr).
    exists e, pre, r, post. repeat split; try done.
    + by eapply request_for_error.
    + by rewrite (Insert_aborts d records w s s1 c e Hc He).
  - intros e' s1 Hc. by apply Insert_panics.
Qed.

(** C4: when the bulk call succeeds at the transport level and the
    response, its error flag set, lists failed items, [Insert] returns
    an error made from the first failed item alone: its text is what
    [%v] prints for the error object of that item, [<nil>] without one
    and otherwise the ten fields of the object between [&{] and [}].
    Neither the result nor the trace keeps anything of the other
    failures. *)
Theorem Insert_first_item_failure (records : list models.Record_)
    (s s1 : State) (c : elastic.Client) (qs : list elastic.BulkIndexRequest)
    (res : elastic.BulkResponse) (f : elastic.BulkResponseItem)
    (others : list elastic.BulkResponseItem) :
  GetClient d w s = Returned c s1 →
  requests_for (config d) records = inl qs →
  BulkDo w (trace s1 ++ [EvBulkDo c (BulkTimeout (config d)) qs])
    c (BulkTimeout (config d)) qs = inl res →
  elastic.Errors res = true →
  elastic.Failed res = f :: others →
  Insert d records w s
  = Returned
      (Some (errors_New
               match elastic.Error f with
               | None => "<nil>"
               | Some e =>
                   "&{" +:+ elastic.ErrType e
                   +:+ " " +:+ elastic.Reason e
                   +:+ " " +:+ elastic.ResourceType e
                   +:+ " " +:+ elastic.ResourceId e
                   +:+ " " +:+ elastic.ErrIndex e
                   +:+ " " +:+ elastic.Phase e
                   +:+ " " +:+ (if elastic.Grouped e then "true" else "false")
                   +:+ " " +:+ fmt.map_v (elastic.CausedBy e)
                   +:+ " " +:+ fmt.pointers_v (elastic.RootCause e)
                   +:+ " " +:+ fmt.maps_v (elastic.FailedShards e)
                   +:+ "}"
               end))
      (extend s1 [EvBulkDo c (BulkTimeout (config d)) qs]).
Proof.
  intros Hc Hr Hw He Hf.
  rewrite (Insert_submits d records w s s1 c qs Hc Hr). simpl.
  rewrite Hw. simpl. rewrite He, Hf.
  by destruct (elastic.Error f).
Qed.

(** C10: when the bulk call succeeds at the transport level and the
    response has its error flag set but lists no failed item, [Insert]
    returns nil. *)
Theorem Insert_flag_without_failures (records : list models.Record_)
    (s s1 : State) (c : elastic.Client) (qs : list elastic.BulkIndexRequest)
    (res : elastic.BulkResponse) :
  GetClient d w s = Returned c s1 →
  requests_for (config d) records = inl qs →
  BulkDo w (trace s1 ++ [EvBulkDo c (BulkTimeout (config d)) qs])
    c (BulkTimeout (config d)) qs = inl res →
  elastic.Errors res = true →
  elastic.Failed res = [] →
  Insert d records w s
  = Returned None (extend s1 [EvBulkDo c (BulkTimeout (config d)) qs]).
Proof.
  intros Hc Hr Hw He Hf.
  rewrite (Insert_submits d records w s s1 c qs Hc Hr). simpl.
  rewrite Hw. simpl. by rewrite He, Hf.
Qed.

(** C9: for an empty batch the derivation succeeds with an empty bulk
    service and [Insert] does not return early: with the client handle
    obtained it calls [Do] on that service.  The library refuses a
    service without requests before anything is sent, so no bulk
    request reaches the datastore and [Insert] returns the error of the
    library; when the handle has to be created and the connect fails,
    [Insert] panics with the connect error. *)
Theorem Insert_empty_batch (s : State) :
  match GetClient d w s with
  | Returned c s1 =>
      buildBulkRequest d [] w s = Returned (Some (elastic.Bulk c), None) s1
      ∧ Insert d [] w s
        = Returned (Some (ClientError "elastic: No bulk actions to commit"))
            (extend s1 [EvBulkDo c (BulkTimeout (config d)) []])
  | Panicked e s1 => Insert d [] w s = Panicked e s1
  end
  ∧ existsb bulk_sent (emitted s (Insert d [] w s)) = false.
Proof.
  destruct (GetClient_trace d w s) as (evs & Ht & _ & _).
  pose proof (GetClient_connect_or_log d w s) as Hg.
  rewrite (emitted_trace s _ evs Ht) in Hg.
  apply connect_or_log_not_sent in Hg.
  destruct (GetClient d w s) as [c s1|e s1] eqn:Hc; simpl in Ht.
  - pose proof (Insert_submits d [] w s s1 c [] Hc eq_refl) as Hi.
    simpl in Hi. split; [split|].
    + rewrite (buildBulkRequest_returns d [] w s s1 c Hc). simpl.
      by rewrite extend_nil.
    + exact Hi.
    + rewrite (emitted_trace s _ (evs ++ [EvBulkDo c (BulkTimeout (config d)) []]))
        by (rewrite Hi; simpl; by rewrite Ht, <- app_assoc).
      rewrite existsb_app. simpl. by rewrite orb_false_r.
  - pose proof (Insert_panics d [] w s s1 e Hc) as Hi.
    split; [exact Hi|].
    by rewrite (emitted_trace s _ evs) by (by rewrite Hi).
Qed.

(** C7: every bulk request [Insert] sends has one document per record of
    the batch, in order, and the body of each is the record's field set
    minus the blacklisted names: no blacklisted field is in it, and
    every other field of the record is, with its value. *)
Theorem Insert_document_body (records : list models.Record_) (s : State)
    (c : elastic.Client) (t : Z) (reqs : list elastic.BulkIndexRequest) :
  EvBulkDo c t reqs ∈ emitted s (Insert d records w s) →
  Forall2
    (λ record q,
       (∀ k, k ∈ BlacklistedColumns (config d) → elastic.Doc q !! k = None)
       ∧ (∀ k v, k ∉ BlacklistedColumns (config d) →
            models.Fields record !! k = Some v → elastic.Doc q !! k = Some v)
       ∧ (∀ k v, elastic.Doc q !! k = Some v →
            models.Fields record !! k = Some v))
    records reqs.
Proof.
  intros Hin.
  destruct (Insert_emitted records s) as (evs & Hb & Hem).
  assert (requests_for (config d) records = inl reqs) as Hr.
  { destruct (GetClient d w s) as [c' s1|e s1];
      [destruct (requests_for (config d) records) as [qs|e]|];
      rewrite Hem in Hin;
      try (by apply no_bulk_elem in Hin).
    apply elem_of_app in Hin as [Hin|Hin];
      [by apply no_bulk_elem in Hin|].
    apply list_elem_of_singleton in Hin. by injection Hin as -> -> ->. }
  eapply Forall2_impl; [by apply requests_for_each|].
  intros record q Hq. simpl in Hq. repeat split.
  - intros k Hk. rewrite (request_for_body _ _ _ k Hq).
    by rewrite decide_True.
  - intros k v Hk Hv. rewrite (request_for_body _ _ _ k Hq).
    by rewrite decide_False.
  - intros k v. rewrite (request_for_body _ _ _ k Hq).
    by destruct (decide (k ∈ BlacklistedColumns (config d))).
Qed.

End InsertProperties.

(** ** [ReadinessCheck] *)

Section Readiness.

Variable d : recordDatabase.
Variable w : World.

Lemma ReadinessCheck_panics (s s1 : State) (e : error) :
  GetClient d w s = Panicked e s1 → ReadinessCheck d w s = Panicked e s1.
Proof. intros Hc. unfold ReadinessCheck, bind. by rewrite Hc. Qed.

Lemma ReadinessCheck_pings (s s1 : State) (c : elastic.Client) :
  GetClient d w s = Returned c s1 →
  ReadinessCheck d w s
  = match PingDo w (trace s1 ++ [EvPingDo c (Host (config d))])
            c (Host (config d)) with
    | inr err =>
        Returned false
          (extend s1 [EvPingDo c (Host (config d));
                      EvLog LevelError (Some err)
                        "error pinging elasticsearch"])
    | inl (info, _) =>
        Returned true
          (extend s1 [EvPingDo c (Host (config d));
                      EvLog LevelInfo None
                        ("connected to es version "
                         +:+ elastic.Version_Number info)])
    end.
Proof.
  intros Hc. unfold ReadinessCheck, bind. rewrite Hc.
  unfold Ping_Do, bind, emit, ask. simpl.
  destruct (PingDo w _ c (Host (config d))) as [[info code]|err]; simpl;
    unfold extend; simpl; by rewrite <- app_assoc.
Qed.

(** C5: [ReadinessCheck] returns no error value.  With the client
    handle obtained it returns a boolean for either outcome of the
    ping: false after logging the error when the ping fails, true after
    logging the reported version when the ping succeeds.  When the
    handle has to be created and the connect fails, no ping is made and
    the connect error reaches the caller as a panic. *)
Theorem ReadinessCheck_boolean (s : State) :
  match GetClient d w s with
  | Returned c s1 =>
      ReadinessCheck d w s
      = match PingDo w (trace s1 ++ [EvPingDo c (Host (config d))])
                c (Host (config d)) with
        | inr err =>
            Returned false
              (extend s1 [EvPingDo c (Host (config d));
                          EvLog LevelError (Some err)
                            "error pinging elasticsearch"])
        | inl (info, _) =>
            Returned true
              (extend s1 [EvPingDo c (Host (config d));
                          EvLog LevelInfo None
                            ("connected to es version "
                             +:+ elastic.Version_Number info)])
        end
  | Panicked e s1 => ReadinessCheck d w s = Panicked e s1
  end.
Proof.
  unfold ReadinessCheck, bind.
  destruct (GetClient d w s) as [c s1|e s1]; [|done].
  unfold Ping_Do, bind, emit, ask, log_error, log_info, emit, ret. simpl.
  destruct (PingDo w _ c (Host (config d))) as [[info code]|err]; simpl;
    unfold extend; simpl; by rewrite <- app_assoc.
Qed.

End Readiness.

(** ** The connection lifecycle *)

Section Lifecycle.

Variable w : World.

Lemma live_from_app (evs1 evs2 : list Event) :
  ∀ (seen : list Event) (acc : list elastic.Client),
  live_from w seen (evs1 ++ evs2) acc
  = live_from w (seen ++ evs1) evs2 (live_from w seen evs1 acc).
Proof.
  induction evs1 as [|ev evs1 IH]; intros seen acc; simpl.
  - by rewrite app_nil_r.
  - rewrite IH. by rewrite <- app_assoc.
Qed.

Lemma live_from_quiet (evs : list Event) :
  ∀ (seen : list Event) (acc : list elastic.Client),
  forallb is_quiet evs = true → live_from w seen evs acc = acc.
Proof.
  induction evs as [|ev evs IH]; intros seen acc; simpl; [done|].
  intros [H1 H2]%andb_prop. rewrite (IH _ _ H2). by destruct ev.
Qed.

Lemma live_app (t evs : list Event) :
  live w (t ++ evs) = live_from w t evs (live w t).
Proof. unfold live. by rewrite live_from_app. Qed.

Lemma Client_eqb_refl (c : elastic.Client) : elastic.Client_eqb c c = true.
Proof. destruct c; simpl. apply Nat.eqb_refl. Qed.

Lemma one_connection_quiet (s : State) (evs : list Event) :
  forallb is_quiet evs = true →
  one_connection w s → one_connection w (extend s evs).
Proof.
  unfold one_connection. intros Hq Hs. simpl.
  by rewrite live_app, live_from_quiet.
Qed.

Lemma GetClient_handle (d : recordDatabase) (s s1 : State)
    (c : elastic.Client) :
  GetClient d w s = Returned c s1 → esClient s1 = Some c.
Proof.
  destruct (esClient s) as [c'|] eqn:Hc.
  - rewrite (GetClient_connected d w s c' Hc). by intros [= <- <-].
  - destruct (connect_answer d w s) as [c'|e] eqn:Ha.
    + rewrite (GetClient_connects d w s c' Hc Ha). by intros [= <- <-].
    + by rewrite (GetClient_fatal d w s e Hc Ha).
Qed.

Lemma GetClient_one_connection (d : recordDatabase) (s : State) :
  one_connection w s → one_connection w (state_of (GetClient d w s)).
Proof.
  unfold one_connection. intros Hs.
  destruct (esClient s) as [c|] eqn:Hc.
  - rewrite (GetClient_connected d w s c Hc). simpl. by rewrite Hs, Hc.
  - simpl in Hs.
    destruct (connect_answer d w s) as [c|e] eqn:Ha.
    + rewrite (GetClient_connects d w s c Hc Ha). simpl.
      rewrite live_app, Hs. simpl. unfold connect_answer in Ha.
      by rewrite Ha.
    + rewrite (GetClient_fatal d w s e Hc Ha). simpl.
      rewrite live_app, Hs, ?Hc. simpl. unfold connect_answer in Ha.
      by rewrite Ha.
Qed.

Lemma CloseClient_cases (d : recordDatabase) (s : State) :
  CloseClient d w s
  = Returned tt
      match esClient s with
      | Some c => {| esClient := None; trace := trace s ++ [EvStop c] |}
      | None => s
      end.
Proof.
  unfold CloseClient, bind, read_esClient. by destruct (esClient s).
Qed.

Lemma CloseClient_one_connection (d : recordDatabase) (s : State) :
  one_connection w s → one_connection w (state_of (CloseClient d w s)).
Proof.
  unfold one_connection. intros Hs. rewrite CloseClient_cases. simpl.
  destruct (esClient s) as [c|] eqn:Hc; [|by rewrite Hs, ?Hc].
  simpl. rewrite live_app, Hs. simpl. by rewrite Client_eqb_refl.
Qed.

(** A use that is not a close runs [GetClient] first; when that
    panics so does the use, otherwise the use returns after events
    that neither connect nor stop and that go to the handle
    [GetClient] returned. *)
Lemma use_shape (d : recordDatabase) (s : State) (op : Op) :
  match op with
  | OpCloseClient => True
  | _ =>
      match GetClient d w s with
      | Panicked e s1 => run_op d op w s = Panicked e s1
      | Returned c s1 =>
          ∃ evs, run_op d op w s = Returned tt (extend s1 evs)
            ∧ forallb is_quiet evs = true
            ∧ Forall (λ ev, handle_of ev = None ∨ handle_of ev = Some c) evs
      end
  end.
Proof.
  destruct op as [| |records|]; [|done| |].
  - simpl. unfold bind.
    destruct (GetClient d w s) as [c s1|e s1]; [|done].
    exists []. by rewrite extend_nil.
  - simpl. unfold bind.
    destruct (GetClient d w s) as [c s1|e s1] eqn:Hc.
    + destruct (requests_for (config d) records) as [qs|e] eqn:Hr.
      * rewrite (Insert_submits d records w s s1 c qs Hc Hr). simpl.
        eexists [_]. split; [done|]. split; [done|].
        constructor; [by right|constructor].
      * rewrite (Insert_aborts d records w s s1 c e Hc Hr).
        exists (batch_log (config d) records). split; [done|].
        pose proof (batch_log_is_log d records) as Hl.
        split; [by apply log_quiet|].
        apply Forall_forall. intros ev Hin%list_elem_of_In.
        rewrite forallb_forall in Hl. specialize (Hl _ Hin).
        left. by destruct ev.
    + by rewrite (Insert_panics d records w s s1 e Hc).
  - simpl. unfold bind.
    destruct (GetClient d w s) as [c s1|e s1] eqn:Hc.
    + rewrite (ReadinessCheck_pings d w s s1 c Hc).
      destruct (PingDo w _ c (Host (config d))) as [[info code]|err];
        eexists [_; _]; (split; [done|]); (split; [done|]);
        (constructor; [by right|]); (constructor; [by left|constructor]).
    + by rewrite (ReadinessCheck_panics d w s s1 e Hc).
Qed.

Lemma run_op_one_connection (d : recordDatabase) (op : Op) (s : State) :
  one_connection w s → one_connection w (state_of (run_op d op w s)).
Proof.
  intros Hs. pose proof (use_shape d s op) as Hu.
  pose proof (GetClient_one_connection d s Hs) as Hg.
  destruct op as [| |records|];
    try (destruct (GetClient d w s) as [c s1|e s1];
         [destruct Hu as (evs & -> & Hq & _); simpl;
          by apply one_connection_quiet
         |by rewrite Hu]).
  by apply CloseClient_one_connection.
Qed.

Lemma run_ops_one_connection (ops : list (recordDatabase * Op)) :
  ∀ s, one_connection w s → one_connection w (state_of (run_ops ops w s)).
Proof.
  induction ops as [|[d op] ops IH]; intros s Hs; simpl; [done|].
  unfold bind. pose proof (run_op_one_connection d op s Hs) as H1.
  destruct (run_op d op w s) as [[] s1|e s1]; simpl in *; [|done].
  by apply IH.
Qed.

End Lifecycle.

Section LifecycleSteps.

Variable w : World.
Variable d : recordDatabase.

Lemma quiet_no_connect (evs : list Event) :
  forallb is_quiet evs = true → filter is_connect evs = [].
Proof.
  induction evs as [|ev evs IH]; simpl; [done|].
  intros [H1 H2]%andb_prop.
  rewrite filter_cons, (IH H2). by destruct ev.
Qed.

(** One use of the sink, seen as a step of the lifecycle. *)
Lemma use_step (s : State) (o : Outcome unit) :
  match GetClient d w s with
  | Panicked e s1 => o = Panicked e s1
  | Returned c s1 =>
      ∃ evs, o = Returned tt (extend s1 evs)
        ∧ forallb is_quiet evs = true
        ∧ Forall (λ ev, handle_of ev = None ∨ handle_of ev = Some c) evs
  end →
  filter is_connect (emitted s o)
  = spec_connects (Host (config d)) (conn_state s)
  ∧ match spec_use (connect_answer d w s) (conn_state s) with
    | Some cs' =>
        value_of o = Some tt
        ∧ conn_state (state_of o) = cs'
        ∧ Forall (λ ev, match handle_of ev with
                        | Some c => cs' = CONNECTED c
                        | None => True
                        end) (emitted s o)
    | None =>
        ∃ e, connect_answer d w s = inr e
          ∧ o = Panicked e
                  (extend s [EvNewClient (Host (config d));
                             EvLog LevelError (Some e)
                               "could not init elasticsearch client"])
    end.
Proof.
  unfold conn_state.
  destruct (esClient s) as [c|] eqn:Hc.
  - rewrite (GetClient_connected d w s c Hc).
    intros (evs & -> & Hq & Hh).
    rewrite (emitted_trace s (Returned tt (extend s evs)) evs eq_refl). simpl.
    split; [by apply quiet_no_connect|].
    rewrite Hc. repeat split.
    eapply Forall_impl; [exact Hh|].
    intros ev [->| ->]; done.
  - destruct (connect_answer d w s) as [c|e] eqn:Ha; simpl.
    + rewrite (GetClient_connects d w s c Hc Ha).
      intros (evs & -> & Hq & Hh).
      rewrite (emitted_trace s _ (EvNewClient (Host (config d)) :: evs))
        by (simpl; by rewrite <- app_assoc).
      rewrite filter_cons. simpl. rewrite (quiet_no_connect evs Hq).
      repeat split. constructor; [done|].
      eapply Forall_impl; [exact Hh|].
      intros ev [->| ->]; done.
    + rewrite (GetClient_fatal d w s e Hc Ha). intros ->.
      erewrite emitted_trace by (simpl; reflexivity).
      split; [done|]. by exists e.
Qed.

(** C6: the connection lifecycle is the two-state machine of the
    specification.  A use ([GetClient], [Insert], [ReadinessCheck]) from
    DISCONNECTED makes one connect attempt: on success the state is
    CONNECTED with the new handle, on failure the call panics after
    logging; a use from CONNECTED makes no connect attempt and keeps the
    handle, and whatever it sends goes to that handle.  A close leads to
    DISCONNECTED, stopping the handle if there is one, and a use after a
    close connects again.  Along every run from the initial state the
    live handles are exactly the one in [esClient]: at most one. *)
Theorem connection_lifecycle (s : State) (op next : Op)
    (ops : list (recordDatabase * Op)) :
  match op with
  | OpCloseClient =>
      value_of (run_op d op w s) = Some tt
      ∧ conn_state (state_of (run_op d op w s)) = spec_close (conn_state s)
      ∧ emitted s (run_op d op w s)
        = match conn_state s with
          | CONNECTED c => [EvStop c]
          | DISCONNECTED => []
          end
  | _ =>
      filter is_connect (emitted s (run_op d op w s))
      = spec_connects (Host (config d)) (conn_state s)
      ∧ match spec_use (connect_answer d w s) (conn_state s) with
        | Some cs' =>
            value_of (run_op d op w s) = Some tt
            ∧ conn_state (state_of (run_op d op w s)) = cs'
            ∧ Forall (λ ev, match handle_of ev with
                            | Some c => cs' = CONNECTED c
                            | None => True
                            end) (emitted s (run_op d op w s))
        | None =>
            ∃ e, connect_answer d w s = inr e
              ∧ run_op d op w s
                = Panicked e
                    (extend s [EvNewClient (Host (config d));
                               EvLog LevelError (Some e)
                                 "could not init elasticsearch client"])
        end
  end
  ∧ match next with
    | OpCloseClient => True
    | _ =>
        filter is_connect
          (emitted (state_of (CloseClient d w s))
             (run_op d next w (state_of (CloseClient d w s))))
        = [EvNewClient (Host (config d))]
    end
  ∧ one_connection w (state_of (run_ops ops w s_init))
  ∧ (length (live w (trace (state_of (run_ops ops w s_init)))) ≤ 1)%nat.
Proof.
  split; [|split; [|split]].
  - destruct op as [| |records|];
      try (apply use_step;
           first [ exact (use_shape w d s OpGetClient)
                 | exact (use_shape w d s (OpInsert records))
                 | exact (use_shape w d s OpReadinessCheck) ]).
    simpl. rewrite CloseClient_cases. unfold conn_state, spec_close.
    destruct (esClient s) as [c|] eqn:Hc; simpl; rewrite ?Hc;
      (split; [done|]); (split; [done|]);
      apply emitted_trace; simpl; by rewrite ?app_nil_r.
  - assert (conn_state (state_of (CloseClient d w s)) = DISCONNECTED) as Hd.
    { rewrite CloseClient_cases. unfold conn_state. simpl.
      by destruct (esClient s) as [c|] eqn:Hc; simpl; rewrite ?Hc. }
    destruct next as [| |records|]; [|done| |].
    + destruct (use_step (state_of (CloseClient d w s)) _
                  (use_shape w d _ OpGetClient)) as [-> _].
      by rewrite Hd.
    + destruct (use_step (state_of (CloseClient d w s)) _
                  (use_shape w d _ (OpInsert records))) as [-> _].
      by rewrite Hd.
    + destruct (use_step (state_of (CloseClient d w s)) _
                  (use_shape w d _ OpReadinessCheck)) as [-> _].
      by rewrite Hd.
  - by apply run_ops_one_connection.
  - rewrite (run_ops_one_connection w ops s_init eq_refl).
    destruct (esClient _); simpl; lia.
Qed.

End LifecycleSteps.

(** ** The theorems at the scenarios of the specification *)

Lemma Insert_derivation_failure_witness :
  existsb (derivation_fails (config (NewDatabase cfg_missing))) [rec_orders]
  = true
  ∧ forallb (λ ev, negb (is_bulk ev))
      (emitted s_init (Insert (NewDatabase cfg_missing) [rec_orders] w_up s_init))
    = true
  ∧ GetClient (NewDatabase cfg_missing) w_up s_init
    = Returned client1 s_connected1
  ∧ ∃ e pre r post,
      [rec_orders] = pre ++ r :: post
      ∧ existsb (derivation_fails (config (NewDatabase cfg_missing))) pre
        = false
      ∧ request_for (config (NewDatabase cfg_missing)) r = inr e
      ∧ (e = FieldNotFound (IndexColumn (config (NewDatabase cfg_missing)))
         ∨ e = FieldNotFound (DocIDColumn (config (NewDatabase cfg_missing))))
      ∧ value_of (Insert (NewDatabase cfg_missing) [rec_orders] w_up s_init)
        = Some (Some e).
Proof.
  assert (existsb (derivation_fails (config (NewDatabase cfg_missing)))
            [rec_orders] = true) as Hf by (vm_compute; reflexivity).
  assert (GetClient (NewDatabase cfg_missing) w_up s_init
          = Returned client1 s_connected1) as Hc by (vm_compute; reflexivity).
  split; [exact Hf|].
  destruct (Insert_derivation_failure (NewDatabase cfg_missing) w_up
              [rec_orders] s_init Hf) as (Hb & Hv & _).
  split; [exact Hb|].
  split; [exact Hc|].
  exact (Hv client1 s_connected1 Hc).
Defined.

Lemma Insert_first_item_failure_witness :
  GetClient sink_default w_rejecting s_init = Returned client1 s_connected1
  ∧ requests_for (config sink_default) batch_sample = inl qs_sample
  ∧ BulkDo w_rejecting
      (trace s_connected1
       ++ [EvBulkDo client1 (BulkTimeout (config sink_default)) qs_sample])
      client1 (BulkTimeout (config sink_default)) qs_sample
    = inl res_rejected
  ∧ elastic.Errors res_rejected = true
  ∧ elastic.Failed res_rejected = [f_orders; f_payments]
  ∧ Insert sink_default batch_sample w_rejecting s_init
    = Returned
        (Some (errors_New
                 "&{mapper_parsing_exception failed to parse 42     false map[] [] []}"))
        (extend s_connected1
           [EvBulkDo client1 (BulkTimeout (config sink_default)) qs_sample]).
Proof.
  split; [vm_compute; reflexivity|].
  split; [vm_compute; reflexivity|].
  split; [vm_compute; reflexivity|].
  split; [vm_compute; reflexivity|].
  split; [vm_compute; reflexivity|].
  apply (Insert_first_item_failure sink_default w_rejecting batch_sample
           s_init s_connected1 client1 qs_sample res_rejected
           f_orders [f_payments]);
    vm_compute; reflexivity.
Defined.

Lemma Insert_flag_without_failures_witness :
  GetClient sink_default w_flag_only s_init = Returned client1 s_connected1
  ∧ requests_for (config sink_default) batch_sample = inl qs_sample
  ∧ BulkDo w_flag_only
      (trace s_connected1
       ++ [EvBulkDo client1 (BulkTimeout (config sink_default)) qs_sample])
      client1 (BulkTimeout (config sink_default)) qs_sample
    = inl res_flag_only
  ∧ elastic.Errors res_flag_only = true
  ∧ elastic.Failed res_flag_only = []
  ∧ Insert sink_default batch_sample w_flag_only s_init
    = Returned None
        (extend s_connected1
           [EvBulkDo client1 (BulkTimeout (config sink_default)) qs_sample]).
Proof.
  split; [vm_compute; reflexivity|].
  split; [vm_compute; reflexivity|].
  split; [vm_compute; reflexivity|].
  split; [vm_compute; reflexivity|].
  split; [vm_compute; reflexivity|].
  apply (Insert_flag_without_failures sink_default w_flag_only batch_sample
           s_init s_connected1 client1 qs_sample res_flag_only);
    vm_compute; reflexivity.
Defined.

Lemma Insert_document_body_witness :
  EvBulkDo client1 10000000000 qs_custom
  ∈ emitted s_init (Insert (NewDatabase cfg_custom) [rec_orders] w_up s_init)
  ∧ Forall2
      (λ record q,
         (∀ k, k ∈ BlacklistedColumns (config (NewDatabase cfg_custom)) →
            elastic.Doc q !! k = None)
         ∧ (∀ k v, k ∉ BlacklistedColumns (config (NewDatabase cfg_custom)) →
              models.Fields record !! k = Some v →
              elastic.Doc q !! k = Some v)
         ∧ (∀ k v, elastic.Doc q !! k = Some v →
              models.Fields record !! k = Some v))
      [rec_orders] qs_custom.
Proof.
  assert (EvBulkDo client1 10000000000 qs_custom
          ∈ emitted s_init
              (Insert (NewDatabase cfg_custom) [rec_orders] w_up s_init))
    as Hin by (vm_compute; constructor; constructor).
  split; [exact Hin|].
  exact (Insert_document_body (NewDatabase cfg_custom) w_up [rec_orders]
           s_init client1 10000000000 qs_custom Hin).
Defined.

(** Where the wording of the specification fails, at concrete inputs. *)

(** A record that lacks the suffix column, no connection yet and an
    unreachable endpoint: [Insert] does not return the derivation
    error, it panics with the connect error. *)
Lemma Insert_derivation_failure_counterexample :
  existsb (derivation_fails (config (NewDatabase cfg_missing))) [rec_orders]
  = true
  ∧ Insert (NewDatabase cfg_missing) [rec_orders] w_down s_init
    = Panicked (ClientError "no Elasticsearch node available")
        (extend s_init
           [EvNewClient "http://localhost:9200";
            EvLog LevelError
              (Some (ClientError "no Elasticsearch node available"))
              "could not init elasticsearch client"])
  ∧ ¬ ∃ e s', Insert (NewDatabase cfg_missing) [rec_orders] w_down s_init
              = Returned (Some e) s'.
Proof.
  split; [vm_compute; reflexivity|].
  split; [vm_compute; reflexivity|].
  intros (e & s' & H). vm_compute in H. discriminate H.
Qed.

(** No connection yet and an unreachable endpoint: [ReadinessCheck]
    returns no boolean, the connect error reaches the caller as a
    panic. *)
Lemma ReadinessCheck_boolean_counterexample :
  ReadinessCheck sink_default w_down s_init
  = Panicked (ClientError "no Elasticsearch node available")
      (extend s_init
         [EvNewClient "http://localhost:9200";
          EvLog LevelError
            (Some (ClientError "no Elasticsearch node available"))
            "could not init elasticsearch client"])
  ∧ ¬ ∃ b s', ReadinessCheck sink_default w_down s_init = Returned b s'.
Proof.
  split; [vm_compute; reflexivity|].
  intros (b & s' & H). vm_compute in H. discriminate H.
Qed.

(** An empty batch on an open connection to a datastore that stores
    everything: no bulk request is sent and [Insert] returns the error
    of the library. *)
Lemma Insert_empty_batch_counterexample :
  existsb bulk_sent (emitted s_connected (Insert sink_default [] w_up s_connected))
  = false
  ∧ Insert sink_default [] w_up s_connected
    = Returned (Some (ClientError "elastic: No bulk actions to commit"))
        (extend s_connected [EvBulkDo client0 10000000000 []])
  ∧ ¬ ∃ c t reqs,
        EvBulkDo c t reqs
        ∈ emitted s_connected (Insert sink_default [] w_up s_connected)
        ∧ bulk_sent (EvBulkDo c t reqs) = true.
Proof.
  split; [vm_compute; reflexivity|].
  split; [vm_compute; reflexivity|].
  intros (c & t & reqs & Hin & Hs).
  assert (emitted s_connected (Insert sink_default [] w_up s_connected)
          = [EvBulkDo client0 10000000000 []]) as He
    by (vm_compute; reflexivity).
  rewrite He in Hin. apply list_elem_of_singleton in Hin.
  injection Hin as -> -> ->. discriminate Hs.
Qed.

(** An open connection and a failing ping: the probe returns false. *)
Example scenario_ping_fails :
  ReadinessCheck sink_default w_down s_connected
  = Returned false
      (extend s_connected
         [EvPingDo client0 "http://localhost:9200";
          EvLog LevelError (Some (ClientError "connection refused"))
            "error pinging elasticsearch"]).
Proof. vm_compute. reflexivity. Qed.

(** A timeout that is not positive: the call on the library is made,
    nothing is sent and the error of the library comes back. *)
Example scenario_deadline_passed :
  Insert (NewDatabase
            {| Host := "http://localhost:9200"; Index := "";
               IndexColumn := ""; DocIDColumn := "";
               BlacklistedColumns := []; BulkTimeout := 0 |})
    [rec_orders] w_up s_connected
  = Returned (Some (ClientError "context deadline exceeded"))
      (extend s_connected [EvBulkDo client0 0 qs_custom_free])
  ∧ bulk_sent (EvBulkDo client0 0 qs_custom_free) = false.
Proof. split; vm_compute; reflexivity. Qed.

(** An error object with a cause, a root cause and failed shards, as
    [%v] prints it. *)
Example scenario_error_text :
  fmt.Sprintf_v
    (Some {| elastic.ErrType := "mapper_parsing_exception";
             elastic.Reason := "failed to parse";
             elastic.ResourceType := ""; elastic.ResourceId := "";
             elastic.ErrIndex := "orders"; elastic.Phase := "";
             elastic.Grouped := true;
             elastic.CausedBy :=
               [("type", elastic.VString "illegal_argument_exception");
                ("reason", elastic.VString "bad value");
                ("line", elastic.VNumber "3");
                ("path", elastic.VArray [elastic.VString "a"; elastic.VNil])];
             elastic.RootCause := [824633802912%N; 0%N];
             elastic.FailedShards :=
               [[("shard", elastic.VNumber "0");
                 ("primary", elastic.VBool true)]; []] |})
  = "&{mapper_parsing_exception failed to parse   orders  true map[line:3 path:[a <nil>] reason:bad value type:illegal_argument_exception] [0xc0000140a0 <nil>] [map[primary:true shard:0] map[]]}".
Proof. vm_compute. reflexivity. Qed.

(** Two failed items: only the first shows in the error. *)
Example scenario_two_failures :
  value_of (Insert sink_default batch_sample w_rejecting s_init)
  = Some (Some (errors_New
            "&{mapper_parsing_exception failed to parse 42     false map[] [] []}")).
Proof. vm_compute. reflexivity. Qed.

(** An insert, a close and a readiness probe against a reachable
    datastore: two connects, the first handle stopped in between. *)
Example scenario_reconnect :
  run_ops [(sink_default, OpInsert []); (sink_default, OpCloseClient);
           (sink_default, OpReadinessCheck)] w_up s_init
  = Returned tt
      {| esClient := Some (elastic.ClientHandle 4);
         trace :=
           [EvNewClient "http://localhost:9200";
            EvBulkDo client1 10000000000 [];
            EvStop client1;
            EvNewClient "http://localhost:9200";
            EvPingDo (elastic.ClientHandle 4) "http://localhost:9200";
            EvLog LevelInfo None "connected to es version 6.8.0"] |}.
Proof. vm_compute. reflexivity. Qed.

(** No connection and an unreachable endpoint: the probe panics. *)
Example scenario_unreachable :
  ReadinessCheck sink_default w_down s_init
  = Panicked (ClientError "no Elasticsearch node available")
      (extend s_init
         [EvNewClient "http://localhost:9200";
          EvLog LevelError
            (Some (ClientError "no Elasticsearch node available"))
            "could not init elasticsearch client"]).
Proof. vm_compute. reflexivity. Qed.

(** ** More on [Insert]: what is sent and what comes back *)

Section InsertMore.

Variable d : recordDatabase.
Variable w : World.

Lemma no_bulk_filter (evs : list Event) :
  forallb (λ ev, negb (is_bulk ev)) evs = true → filter is_bulk evs = [].
Proof.
  induction evs as [|ev evs IH]; simpl; [done|].
  intros [H1 H2]%andb_prop.
  rewrite filter_cons, (IH H2). by destruct ev.
Qed.

(** A bulk call in the trace of [Insert] is the call on the handle
    [GetClient] returned, with the configured timeout and the requests
    of the whole batch. *)
Lemma Insert_bulk_event (records : list models.Record_) (s : State)
    (c : elastic.Client) (t : Z) (reqs : list elastic.BulkIndexRequest) :
  EvBulkDo c t reqs ∈ emitted s (Insert d records w s) →
  ∃ s1, GetClient d w s = Returned c s1
    ∧ requests_for (config d) records = inl reqs
    ∧ t = BulkTimeout (config d).
Proof.
  intros Hin.
  destruct (Insert_emitted d w records s) as (evs & Hb & Hem).
  destruct (GetClient d w s) as [c' s1|e s1];
    [destruct (requests_for (config d) records) as [qs|e]|];
    rewrite Hem in Hin;
    try (by apply no_bulk_elem in Hin).
  apply elem_of_app in Hin as [Hin|Hin];
    [by apply no_bulk_elem in Hin|].
  apply list_elem_of_singleton in Hin. injection Hin as -> -> ->.
  by exists s1.
Qed.

Lemma request_for_fields (record : models.Record_)
    (q : elastic.BulkIndexRequest) :
  request_for (config d) record = inl q →
  spec_collection_name (config d) record = inl (elastic.Index q)
  ∧ spec_document_key (config d) record = inl (elastic.Id q)
  ∧ elastic.Type_ q = models.Topic record.
Proof.
  unfold request_for.
  destruct (spec_collection_name (config d) record); [|done].
  destruct (spec_document_key (config d) record); [|done].
  by intros [= <-].
Qed.

(** A transport error of the bulk call is handed to the caller as it
    is, and nothing is logged about it. *)
Theorem Insert_transport_error (records : list models.Record_)
    (s s1 : State) (c : elastic.Client) (qs : list elastic.BulkIndexRequest)
    (err : error) :
  GetClient d w s = Returned c s1 →
  requests_for (config d) records = inl qs →
  BulkDo w (trace s1 ++ [EvBulkDo c (BulkTimeout (config d)) qs])
    c (BulkTimeout (config d)) qs = inr err →
  Insert d records w s
  = Returned (Some err)
      (extend s1 [EvBulkDo c (BulkTimeout (config d)) qs]).
Proof.
  intros Hc Hr Hw.
  rewrite (Insert_submits d records w s s1 c qs Hc Hr). simpl.
  by rewrite Hw.
Qed.

(** With the error flag of the response unset, [Insert] returns nil
    whatever the statuses of the items: failed items are not looked
    at. *)
Theorem Insert_ignores_unflagged_failures (records : list models.Record_)
    (s s1 : State) (c : elastic.Client) (qs : list elastic.BulkIndexRequest)
    (res : elastic.BulkResponse) :
  GetClient d w s = Returned c s1 →
  requests_for (config d) records = inl qs →
  BulkDo w (trace s1 ++ [EvBulkDo c (BulkTimeout (config d)) qs])
    c (BulkTimeout (config d)) qs = inl res →
  elastic.Errors res = false →
  Insert d records w s
  = Returned None (extend s1 [EvBulkDo c (BulkTimeout (config d)) qs]).
Proof.
  intros Hc Hr Hw He.
  rewrite (Insert_submits d records w s s1 c qs Hc Hr). simpl.
  rewrite Hw. simpl. by rewrite He.
Qed.

(** Every bulk call of [Insert] carries the configured timeout, goes to
    the handle left in [esClient], and holds one request per record, in
    the order of the batch: its index is the derived index name, its
    type the topic, its id the derived key. *)
Theorem Insert_request_shape (records : list models.Record_) (s : State)
    (c : elastic.Client) (t : Z) (reqs : list elastic.BulkIndexRequest) :
  EvBulkDo c t reqs ∈ emitted s (Insert d records w s) →
  t = BulkTimeout (config d)
  ∧ esClient (state_of (Insert d records w s)) = Some c
  ∧ length reqs = length records
  ∧ Forall2
      (λ record q,
         (∀ w' s', value_of (getDatabaseIndex d record w' s')
                   = Some (elastic.Index q, None))
         ∧ (∀ w' s', value_of (getDatabaseDocID d record w' s')
                     = Some (elastic.Id q, None))
         ∧ elastic.Type_ q = models.Topic record)
      records reqs.
Proof.
  intros Hin.
  destruct (Insert_bulk_event records s c t reqs Hin) as (s1 & Hc & Hr & ->).
  pose proof (requests_for_each _ _ _ Hr) as Hall.
  split; [done|]. split; [|split].
  - rewrite (Insert_submits d records w s s1 c reqs Hc Hr). simpl.
    by eapply GetClient_handle.
  - symmetry. by eapply Forall2_length.
  - eapply Forall2_impl; [exact Hall|].
    intros record q Hq. simpl in Hq.
    destruct (request_for_fields record q Hq) as (Hi & Hk & Ht).
    repeat split; [| |done].
    + intros w' s'. by rewrite getDatabaseIndex_returns, Hi.
    + intros w' s'. by rewrite getDatabaseDocID_returns, Hk.
Qed.

(** When [Insert] returns nil, exactly one bulk call went out, holding
    one request per record, and its answer was a response without a
    flagged failure. *)
Theorem Insert_nil_means_submitted (records : list models.Record_)
    (s s' : State) :
  Insert d records w s = Returned None s' →
  ∃ c qs res,
    filter is_bulk (emitted s (Insert d records w s))
    = [EvBulkDo c (BulkTimeout (config d)) qs]
    ∧ length qs = length records
    ∧ BulkDo w (trace s') c (BulkTimeout (config d)) qs = inl res
    ∧ (elastic.Errors res = false ∨ elastic.Failed res = []).
Proof.
  intros Hi.
  destruct (Insert_emitted d w records s) as (evs & Hb & Hem).
  destruct (GetClient d w s) as [c s1|e s1] eqn:Hc.
  2:{ by rewrite (Insert_panics d records w s s1 e Hc) in Hi. }
  destruct (requests_for (config d) records) as [qs|e] eqn:Hr.
  2:{ by rewrite (Insert_aborts d records w s s1 c e Hc Hr) in Hi. }
  rewrite Hem, filter_app, (no_bulk_filter evs Hb). simpl.
  rewrite (Insert_submits d records w s s1 c qs Hc Hr) in Hi.
  simpl in Hi. injection Hi as Hv <-. simpl.
  destruct (BulkDo w _ c (BulkTimeout (config d)) qs) as [res|err] eqn:Hw;
    simpl in Hv; [|done].
  exists c, qs, res. split; [done|]. split.
  { symmetry. eapply Forall2_length. by apply requests_for_each. }
  split; [done|].
  destruct (elastic.Errors res); [|by left].
  destruct (elastic.Failed res); [by right|done].
Qed.

End InsertMore.

(** ** More on building the bulk: aborting and composing *)

Section BuildMore.

Variable d : recordDatabase.
Variable w : World.

Lemma requests_for_cut (pre post : list models.Record_) (r : models.Record_) :
  derivation_fails (config d) r = true →
  requests_for (config d) (pre ++ r :: post)
  = requests_for (config d) (pre ++ [r])
  ∧ batch_log (config d) (pre ++ r :: post)
    = batch_log (config d) (pre ++ [r])
  ∧ ∃ e, requests_for (config d) (pre ++ [r]) = inr e.
Proof.
  intros Hf. induction pre as [|x pre (IH1 & IH2 & e & IH3)]; simpl.
  - unfold derivation_fails in Hf. unfold request_for in *.
    destruct (spec_collection_name (config d) r) as [i|e]; [|by eauto].
    destruct (spec_document_key (config d) r) as [k|e]; [done|by eauto].
  - rewrite IH1, IH2, IH3.
    destruct (request_for (config d) x); by eauto.
Qed.

(** The records behind the first one whose derivation fails play no
    part: [Insert] does the same whatever follows that record. *)
Theorem Insert_stops_at_first_failure (pre post post' : list models.Record_)
    (r : models.Record_) (s : State) :
  derivation_fails (config d) r = true →
  Insert d (pre ++ r :: post) w s = Insert d (pre ++ r :: post') w s.
Proof.
  intros Hf.
  destruct (requests_for_cut pre post r Hf) as (H1 & H2 & e & H3).
  destruct (requests_for_cut pre post' r Hf) as (H1' & H2' & _).
  destruct (GetClient d w s) as [c s1|e' s1] eqn:Hc.
  - rewrite (Insert_aborts d (pre ++ r :: post) w s s1 c e Hc)
      by (by rewrite H1).
    rewrite (Insert_aborts d (pre ++ r :: post') w s s1 c e Hc)
      by (by rewrite H1').
    by rewrite H2, H2'.
  - by rewrite !(Insert_panics d _ w s s1 e' Hc).
Qed.

Lemma batch_log_failure (records : list models.Record_) (e : error) :
  requests_for (config d) records = inr e →
  batch_log (config d) records = [EvLog LevelError (Some e) index_message]
  ∨ batch_log (config d) records = [EvLog LevelError (Some e) docID_message].
Proof.
  induction records as [|record rest IH]; simpl; [done|].
  unfold request_for, index_log, docID_log.
  destruct (spec_collection_name (config d) record) as [i|e'].
  2:{ intros [= ->]. by left. }
  destruct (spec_document_key (config d) record) as [k|e'].
  2:{ intros [= ->]. by right. }
  destruct (requests_for (config d) rest) as [qs|e']; [done|].
  intros [= ->]. by apply IH.
Qed.

(** A failing derivation leaves exactly one log line, an error line
    that carries the very error [Insert] returns; the records behind
    the failing one are not derived and leave no line. *)
Theorem Insert_failure_logged_once (records : list models.Record_)
    (s s1 : State) (c : elastic.Client) :
  GetClient d w s = Returned c s1 →
  existsb (derivation_fails (config d)) records = true →
  ∃ e msg,
    Insert d records w s
    = Returned (Some e) (extend s1 [EvLog LevelError (Some e) msg])
    ∧ (msg = index_message ∨ msg = docID_message).
Proof.
  intros Hc Hf. destruct (requests_for_fails _ _ Hf) as (e & He).
  rewrite (Insert_aborts d records w s s1 c e Hc He).
  destruct (batch_log_failure records e He) as [-> | ->].
  - exists e, index_message. split; [done|by left].
  - exists e, docID_message. split; [done|by right].
Qed.

(** The loop over a batch made of two parts is the loop over the first
    part followed, when that gave a service, by the loop over the
    second part on that service. *)
Theorem buildBulkRequest_loop_app (xs ys : list models.Record_) :
  ∀ (b : elastic.BulkService) (s : State),
  buildBulkRequest_loop d b (xs ++ ys) w s
  = match buildBulkRequest_loop d b xs w s with
    | Returned (Some b', None) s' => buildBulkRequest_loop d b' ys w s'
    | other => other
    end.
Proof.
  induction xs as [|x xs IH]; intros b s; simpl; [done|].
  unfold bind.
  destruct (getDatabaseIndex d x w s) as [[index [e|]] s1|e s1]; simpl;
    [done| |done].
  destruct (getDatabaseDocID d x w s1) as [[docID [e|]] s2|e s2]; simpl;
    [done| |done].
  apply IH.
Qed.

(** [buildBulkRequest] returns a service or an error, never both and
    never neither: the service [Insert] calls [Do] on is never nil. *)
Theorem buildBulkRequest_service_xor_error (records : list models.Record_)
    (s s' : State) (b : option elastic.BulkService) (e : option error) :
  buildBulkRequest d records w s = Returned (b, e) s' →
  (is_Some b ∧ e = None) ∨ (b = None ∧ is_Some e).
Proof.
  destruct (GetClient d w s) as [c s1|e' s1] eqn:Hc.
  - rewrite (buildBulkRequest_returns d records w s s1 c Hc).
    destruct (requests_for (config d) records); intros [= <- <- _].
    + left. by split; [eexists|].
    + right. by split; [|eexists].
  - by rewrite (buildBulkRequest_panics d records w s s1 e' Hc).
Qed.

(** The derivations read the record itself, not the filtered body: a
    blacklisted suffix column still names the index, and is left out of
    the document. *)
Theorem Insert_blacklisted_column_still_derives
    (records : list models.Record_) (s : State)
    (c : elastic.Client) (t : Z) (reqs : list elastic.BulkIndexRequest) :
  EvBulkDo c t reqs ∈ emitted s (Insert d records w s) →
  IndexColumn (config d) ≠ "" →
  IndexColumn (config d) ∈ BlacklistedColumns (config d) →
  Forall2
    (λ record q,
       ∃ v, models.Fields record !! IndexColumn (config d) = Some v
         ∧ elastic.Index q = spec_prefix (config d) record +:+ "-" +:+ v
         ∧ elastic.Doc q !! IndexColumn (config d) = None)
    records reqs.
Proof.
  intros Hin Hne Hbl.
  destruct (Insert_bulk_event d w records s c t reqs Hin) as (s1 & _ & Hr & _).
  eapply Forall2_impl; [by apply requests_for_each|].
  intros record q Hq. simpl in Hq.
  pose proof (request_for_body _ _ _ (IndexColumn (config d)) Hq) as Hbody.
  rewrite decide_True in Hbody by done.
  destruct (request_for_fields d record q Hq) as (Hi & _ & _).
  unfold spec_collection_name, spec_suffix in Hi.
  rewrite eqb_empty_decide, decide_False in Hi by done.
  destruct (models.Fields record !! IndexColumn (config d)) as [v|];
    [|done].
  exists v. by injection Hi as <-.
Qed.

End BuildMore.

(** ** More on the client handle and on what each operation sends *)

Section HandleMore.

Variable w : World.

(** Closing twice is closing once: the second close finds [esClient]
    nil, stops nothing and changes nothing, whichever sink it goes
    through. *)
Theorem CloseClient_idempotent (d d' : recordDatabase) (s : State) :
  (CloseClient d;; CloseClient d') w s = CloseClient d w s
  ∧ emitted (state_of (CloseClient d w s))
      (CloseClient d' w (state_of (CloseClient d w s))) = []
  ∧ esClient (state_of (CloseClient d w s)) = None.
Proof.
  unfold bind. rewrite (CloseClient_cases w d s). simpl.
  rewrite CloseClient_cases.
  destruct (esClient s) as [c|] eqn:Hc; simpl; rewrite ?Hc;
    (split; [done|]); (split; [|done]);
    apply emitted_trace; simpl; by rewrite app_nil_r.
Qed.

(** The handle is shared by all sinks: once one sink has obtained it,
    [GetClient] of any other sink returns that same handle and connects
    to nothing, whatever host that other sink is configured for. *)
Theorem GetClient_shared (d d' : recordDatabase) (s s1 : State)
    (c : elastic.Client) :
  GetClient d w s = Returned c s1 →
  GetClient d' w s1 = Returned c s1 ∧ esClient s1 = Some c.
Proof.
  intros Hc. pose proof (GetClient_handle w d s s1 c Hc) as Hh.
  split; [|done]. by apply GetClient_connected.
Qed.

Lemma log_filters (evs : list Event) :
  forallb is_log evs = true →
  filter is_ping evs = [] ∧ filter is_stop evs = []
  ∧ filter is_bulk evs = [] ∧ filter is_connect evs = [].
Proof.
  induction evs as [|ev evs IH]; simpl; [done|].
  intros [H1 H2]%andb_prop. destruct (IH H2) as (I1 & I2 & I3 & I4).
  rewrite !filter_cons, I1, I2, I3, I4. by destruct ev.
Qed.

Lemma GetClient_emitted (d : recordDatabase) (s : State) :
  trace (state_of (GetClient d w s))
  = trace s ++ emitted s (GetClient d w s)
  ∧ filter is_ping (emitted s (GetClient d w s)) = []
  ∧ filter is_stop (emitted s (GetClient d w s)) = []
  ∧ filter is_bulk (emitted s (GetClient d w s)) = [].
Proof.
  destruct (esClient s) as [c|] eqn:Hc.
  - rewrite (GetClient_connected d w s c Hc).
    rewrite (emitted_trace s (Returned c s) []) by (simpl; by rewrite app_nil_r).
    simpl. by rewrite app_nil_r.
  - destruct (connect_answer d w s) as [c|e] eqn:Ha.
    + rewrite (GetClient_connects d w s c Hc Ha).
      by erewrite emitted_trace by (simpl; reflexivity).
    + rewrite (GetClient_fatal d w s e Hc Ha).
      by erewrite emitted_trace by (simpl; reflexivity).
Qed.

Lemma Insert_emitted_split (d : recordDatabase)
    (records : list models.Record_) (s : State) :
  ∃ tail : list Event,
    emitted s (Insert d records w s) = emitted s (GetClient d w s) ++ tail
    ∧ (forallb is_log tail = true
       ∨ ∃ c qs, tail = [EvBulkDo c (BulkTimeout (config d)) qs]).
Proof.
  destruct (GetClient_emitted d s) as (Ht & _).
  destruct (GetClient d w s) as [c s1|e s1] eqn:Hc; simpl in Ht.
  - destruct (requests_for (config d) records) as [qs|e] eqn:Hr.
    + exists [EvBulkDo c (BulkTimeout (config d)) qs]. split; [|by eauto].
      apply emitted_trace.
      rewrite (Insert_submits d records w s s1 c qs Hc Hr). simpl.
      by rewrite Ht, <- app_assoc.
    + exists (batch_log (config d) records). split.
      * apply emitted_trace.
        rewrite (Insert_aborts d records w s s1 c e Hc Hr). simpl.
        by rewrite Ht, <- app_assoc.
      * left. apply batch_log_is_log.
  - exists []. split; [|by left].
    rewrite app_nil_r, (Insert_panics d records w s s1 e Hc).
    by apply emitted_trace.
Qed.

Lemma ReadinessCheck_emitted_split (d : recordDatabase) (s : State) :
  ∃ tail : list Event,
    emitted s (ReadinessCheck d w s) = emitted s (GetClient d w s) ++ tail
    ∧ (tail = []
       ∨ ∃ c l, tail = [EvPingDo c (Host (config d)); l] ∧ is_log l = true).
Proof.
  destruct (GetClient_emitted d s) as (Ht & _).
  destruct (GetClient d w s) as [c s1|e s1] eqn:Hc; simpl in Ht.
  - rewrite (ReadinessCheck_pings d w s s1 c Hc).
    destruct (PingDo w _ c (Host (config d))) as [[info code]|err];
      eexists [_; _];
      (split; [apply emitted_trace; simpl; by rewrite Ht, <- app_assoc|]);
      right; by eauto.
  - exists []. split; [|by left].
    rewrite app_nil_r, (ReadinessCheck_panics d w s s1 e Hc).
    by apply emitted_trace.
Qed.

(** What the operations never send: [Insert] never pings and never
    stops the handle, and makes at most one bulk call; [ReadinessCheck]
    never makes a bulk call and never stops the handle, and pings at
    most once; [CloseClient] never connects, writes or pings, and stops
    at most one handle; [GetClient] never writes, pings or stops. *)
Theorem operations_send_only_their_own (d : recordDatabase)
    (records : list models.Record_) (s : State) :
  (filter is_ping (emitted s (Insert d records w s)) = []
   ∧ filter is_stop (emitted s (Insert d records w s)) = []
   ∧ (length (filter is_bulk (emitted s (Insert d records w s))) ≤ 1)%nat)
  ∧ (filter is_bulk (emitted s (ReadinessCheck d w s)) = []
     ∧ filter is_stop (emitted s (ReadinessCheck d w s)) = []
     ∧ (length (filter is_ping (emitted s (ReadinessCheck d w s))) ≤ 1)%nat)
  ∧ (filter is_connect (emitted s (CloseClient d w s)) = []
     ∧ filter is_bulk (emitted s (CloseClient d w s)) = []
     ∧ filter is_ping (emitted s (CloseClient d w s)) = []
     ∧ (length (filter is_stop (emitted s (CloseClient d w s))) ≤ 1)%nat)
  ∧ (filter is_bulk (emitted s (GetClient d w s)) = []
     ∧ filter is_ping (emitted s (GetClient d w s)) = []
     ∧ filter is_stop (emitted s (GetClient d w s)) = []).
Proof.
  destruct (GetClient_emitted d s) as (_ & Gp & Gs & Gb).
  split; [|split; [|split]].
  - destruct (Insert_emitted_split d records s) as (tail & -> & Ht).
    rewrite !filter_app, Gp, Gs, Gb. simpl.
    destruct Ht as [Hl|(c & qs & ->)].
    + destruct (log_filters tail Hl) as (-> & -> & -> & _).
      repeat split; simpl; lia.
    + repeat split; simpl; lia.
  - destruct (ReadinessCheck_emitted_split d s) as (tail & -> & Ht).
    rewrite !filter_app, Gp, Gs, Gb. simpl.
    destruct Ht as [->|(c & l & -> & Hl)].
    + repeat split; simpl; lia.
    + by destruct l.
  - rewrite CloseClient_cases.
    destruct (esClient s) as [c|] eqn:Hc.
    + erewrite emitted_trace by (simpl; reflexivity).
      repeat split; simpl; lia.
    + rewrite (emitted_trace s (Returned tt s) [])
        by (simpl; by rewrite app_nil_r).
      repeat split; simpl; lia.
  - done.
Qed.

End HandleMore.

(** ** No call on a stopped handle *)

Section LiveTargets.

Variable w : World.

Lemma targets_live_from_app (evs1 evs2 : list Event) :
  ∀ (seen : list Event) (acc : list elastic.Client),
  targets_live_from w seen (evs1 ++ evs2) acc
  = targets_live_from w seen evs1 acc
    && targets_live_from w (seen ++ evs1) evs2 (live_from w seen evs1 acc).
Proof.
  induction evs1 as [|ev evs1 IH]; intros seen acc; simpl.
  - by rewrite app_nil_r.
  - rewrite IH, <- app_assoc. simpl. by rewrite andb_assoc.
Qed.

Lemma targets_live_app (t evs : list Event) :
  targets_live w (t ++ evs)
  = targets_live w t && targets_live_from w t evs (live w t).
Proof. unfold targets_live, live. by rewrite targets_live_from_app. Qed.

(** Events that neither connect nor stop and that go to the one live
    handle, if to any, pass the check. *)
Lemma targets_live_from_quiet (c : elastic.Client) (evs : list Event) :
  ∀ seen : list Event,
  forallb is_quiet evs = true →
  Forall (λ ev, handle_of ev = None ∨ handle_of ev = Some c) evs →
  targets_live_from w seen evs [c] = true.
Proof.
  induction evs as [|ev evs IH]; intros seen; simpl; [done|].
  intros [H1 H2]%andb_prop Hh. inversion Hh as [|? ? Hev Hrest]; subst.
  assert (live_step w (seen ++ [ev]) ev [c] = [c]) as -> by (by destruct ev).
  rewrite (IH _ H2 Hrest), andb_true_r.
  destruct Hev as [-> | ->]; [done|]. simpl. by rewrite Client_eqb_refl.
Qed.

Lemma GetClient_targets_live (d : recordDatabase) (s : State) :
  targets_live w (trace s) = true →
  targets_live w (trace (state_of (GetClient d w s))) = true.
Proof.
  intros Hs. destruct (esClient s) as [c|] eqn:Hc.
  - by rewrite (GetClient_connected d w s c Hc).
  - destruct (connect_answer d w s) as [c|e] eqn:Ha.
    + rewrite (GetClient_connects d w s c Hc Ha). simpl.
      by rewrite targets_live_app, Hs.
    + rewrite (GetClient_fatal d w s e Hc Ha). simpl.
      by rewrite targets_live_app, Hs.
Qed.

Lemma run_op_targets_live (d : recordDatabase) (op : Op) (s : State) :
  one_connection w s → targets_live w (trace s) = true →
  targets_live w (trace (state_of (run_op d op w s))) = true.
Proof.
  intros Ho Hs. pose proof (use_shape w d s op) as Hu.
  pose proof (GetClient_one_connection w d s Ho) as Hg.
  pose proof (GetClient_targets_live d s Hs) as Ht.
  assert (∀ c s1, GetClient d w s = Returned c s1 →
          ∀ evs, forallb is_quiet evs = true →
          Forall (λ ev, handle_of ev = None ∨ handle_of ev = Some c) evs →
          targets_live w (trace (extend s1 evs)) = true) as Huse.
  { intros c s1 Hc evs Hq Hh. rewrite Hc in Hg, Ht. simpl in Hg, Ht.
    simpl. rewrite targets_live_app, Ht. simpl.
    unfold one_connection in Hg.
    rewrite Hg, (GetClient_handle w d s s1 c Hc). simpl.
    by apply targets_live_from_quiet. }
  destruct op as [| |records|];
    try (destruct (GetClient d w s) as [c s1|e s1] eqn:Hc;
         [destruct Hu as (evs & -> & Hq & Hh); simpl;
          by apply (Huse c s1 eq_refl)
         |by rewrite Hu]).
  simpl. rewrite CloseClient_cases. simpl.
  destruct (esClient s) as [c|] eqn:Hc; [|done]. simpl.
  rewrite targets_live_app, Hs. simpl.
  unfold one_connection in Ho. rewrite Ho, ?Hc. simpl.
  by rewrite Client_eqb_refl.
Qed.

(** Along every run of operations from the initial state, every stop,
    bulk call and ping goes to a handle that is live at that moment: a
    handle is never used after it was stopped, and never stopped
    twice. *)
Theorem run_targets_live_handles (ops : list (recordDatabase * Op)) :
  targets_live w (trace (state_of (run_ops ops w s_init))) = true.
Proof.
  assert (∀ s, one_connection w s → targets_live w (trace s) = true →
          targets_live w (trace (state_of (run_ops ops w s))) = true) as H.
  { induction ops as [|[d op] rest IH]; intros s Ho Hs; simpl; [done|].
    unfold bind.
    pose proof (run_op_one_connection w d op s Ho) as H1.
    pose proof (run_op_targets_live d op s Ho Hs) as H2.
    destruct (run_op d op w s) as [[] s1|e s1]; simpl in *; [|done].
    by apply IH. }
  by apply H.
Qed.

End LiveTargets.

(** ** The further theorems at sample data *)

Lemma Insert_transport_error_witness :
  GetClient sink_default w_timeout s_init = Returned client1 s_connected1
  ∧ requests_for (config sink_default) batch_sample = inl qs_sample
  ∧ BulkDo w_timeout
      (trace s_connected1
       ++ [EvBulkDo client1 (BulkTimeout (config sink_default)) qs_sample])
      client1 (BulkTimeout (config sink_default)) qs_sample
    = inr (ClientError "context deadline exceeded")
  ∧ Insert sink_default batch_sample w_timeout s_init
    = Returned (Some (ClientError "context deadline exceeded"))
        (extend s_connected1
           [EvBulkDo client1 (BulkTimeout (config sink_default)) qs_sample]).
Proof.
  split; [vm_compute; reflexivity|].
  split; [vm_compute; reflexivity|].
  split; [vm_compute; reflexivity|].
  apply (Insert_transport_error sink_default w_timeout batch_sample
           s_init s_connected1 client1 qs_sample
           (ClientError "context deadline exceeded"));
    vm_compute; reflexivity.
Defined.

Lemma Insert_ignores_unflagged_failures_witness :
  GetClient sink_default w_unflagged s_init = Returned client1 s_connected1
  ∧ requests_for (config sink_default) batch_sample = inl qs_sample
  ∧ BulkDo w_unflagged
      (trace s_connected1
       ++ [EvBulkDo client1 (BulkTimeout (config sink_default)) qs_sample])
      client1 (BulkTimeout (config sink_default)) qs_sample
    = inl res_unflagged
  ∧ elastic.Errors res_unflagged = false
  ∧ elastic.Failed res_unflagged = [f_orders; f_payments]
  ∧ Insert sink_default batch_sample w_unflagged s_init
    = Returned None
        (extend s_connected1
           [EvBulkDo client1 (BulkTimeout (config sink_default)) qs_sample]).
Proof.
  split; [vm_compute; reflexivity|].
  split; [vm_compute; reflexivity|].
  split; [vm_compute; reflexivity|].
  split; [vm_compute; reflexivity|].
  split; [vm_compute; reflexivity|].
  apply (Insert_ignores_unflagged_failures sink_default w_unflagged
           batch_sample s_init s_connected1 client1 qs_sample res_unflagged);
    vm_compute; reflexivity.
Defined.

Lemma Insert_request_shape_witness :
  EvBulkDo client1 10000000000 qs_custom
  ∈ emitted s_init (Insert (NewDatabase cfg_custom) [rec_orders] w_up s_init)
  ∧ 10000000000 = BulkTimeout (config (NewDatabase cfg_custom))
  ∧ esClient (state_of (Insert (NewDatabase cfg_custom) [rec_orders] w_up s_init))
    = Some client1
  ∧ length qs_custom = length [rec_orders].
Proof.
  assert (EvBulkDo client1 10000000000 qs_custom
          ∈ emitted s_init
              (Insert (NewDatabase cfg_custom) [rec_orders] w_up s_init))
    as Hin by (vm_compute; constructor; constructor).
  split; [exact Hin|].
  destruct (Insert_request_shape (NewDatabase cfg_custom) w_up [rec_orders]
              s_init client1 10000000000 qs_custom Hin) as (Ht & Hc & Hl & _).
  split; [exact Ht|]. split; [exact Hc|exact Hl].
Defined.

Lemma Insert_nil_means_submitted_witness :
  Insert sink_default batch_sample w_up s_init
  = Returned None
      (extend s_connected1
         [EvBulkDo client1 (BulkTimeout (config sink_default)) qs_sample])
  ∧ ∃ c qs res,
      filter is_bulk (emitted s_init (Insert sink_default batch_sample w_up s_init))
      = [EvBulkDo c (BulkTimeout (config sink_default)) qs]
      ∧ length qs = length batch_sample
      ∧ BulkDo w_up
          (trace (extend s_connected1
                    [EvBulkDo client1 (BulkTimeout (config sink_default))
                       qs_sample]))
          c (BulkTimeout (config sink_default)) qs = inl res
      ∧ (elastic.Errors res = false ∨ elastic.Failed res = []).
Proof.
  assert (Insert sink_default batch_sample w_up s_init
          = Returned None
              (extend s_connected1
                 [EvBulkDo client1 (BulkTimeout (config sink_default))
                    qs_sample])) as Hi by (vm_compute; reflexivity).
  split; [exact Hi|].
  exact (Insert_nil_means_submitted sink_default w_up batch_sample s_init _ Hi).
Defined.

Lemma Insert_stops_at_first_failure_witness :
  derivation_fails (config (NewDatabase cfg_custom)) rec_bare = true
  ∧ Insert (NewDatabase cfg_custom) ([rec_orders] ++ rec_bare :: [rec_payments])
      w_up s_init
    = Insert (NewDatabase cfg_custom) ([rec_orders] ++ rec_bare :: [])
        w_up s_init.
Proof.
  assert (derivation_fails (config (NewDatabase cfg_custom)) rec_bare = true)
    as Hf by (vm_compute; reflexivity).
  split; [exact Hf|].
  exact (Insert_stops_at_first_failure (NewDatabase cfg_custom) w_up
           [rec_orders] [rec_payments] [] rec_bare s_init Hf).
Defined.

Lemma Insert_failure_logged_once_witness :
  GetClient (NewDatabase cfg_custom) w_up s_init = Returned client1 s_connected1
  ∧ existsb (derivation_fails (config (NewDatabase cfg_custom)))
      [rec_orders; rec_bare; rec_payments] = true
  ∧ ∃ e msg,
      Insert (NewDatabase cfg_custom) [rec_orders; rec_bare; rec_payments]
        w_up s_init
      = Returned (Some e) (extend s_connected1 [EvLog LevelError (Some e) msg])
      ∧ (msg = index_message ∨ msg = docID_message).
Proof.
  assert (GetClient (NewDatabase cfg_custom) w_up s_init
          = Returned client1 s_connected1) as Hc by (vm_compute; reflexivity).
  assert (existsb (derivation_fails (config (NewDatabase cfg_custom)))
            [rec_orders; rec_bare; rec_payments] = true)
    as Hf by (vm_compute; reflexivity).
  split; [exact Hc|]. split; [exact Hf|].
  exact (Insert_failure_logged_once (NewDatabase cfg_custom) w_up
           [rec_orders; rec_bare; rec_payments] s_init s_connected1 client1
           Hc Hf).
Defined.

Lemma buildBulkRequest_service_xor_error_witness :
  buildBulkRequest (NewDatabase cfg_missing) [rec_orders] w_up s_init
  = Returned (None, Some (FieldNotFound "missing_field"))
      (extend s_connected1
         [EvLog LevelError (Some (FieldNotFound "missing_field"))
            index_message])
  ∧ ((is_Some (@None elastic.BulkService)
      ∧ Some (FieldNotFound "missing_field") = None)
     ∨ (@None elastic.BulkService = None
        ∧ is_Some (Some (FieldNotFound "missing_field")))).
Proof.
  assert (buildBulkRequest (NewDatabase cfg_missing) [rec_orders] w_up s_init
          = Returned (None, Some (FieldNotFound "missing_field"))
              (extend s_connected1
                 [EvLog LevelError (Some (FieldNotFound "missing_field"))
                    index_message])) as Hb by (vm_compute; reflexivity).
  split; [exact Hb|].
  exact (buildBulkRequest_service_xor_error (NewDatabase cfg_missing) w_up
           [rec_orders] s_init _ _ _ Hb).
Defined.

Lemma Insert_blacklisted_column_still_derives_witness :
  EvBulkDo client1 10000000000 qs_hidden
  ∈ emitted s_init (Insert (NewDatabase cfg_hidden) [rec_orders] w_up s_init)
  ∧ IndexColumn (config (NewDatabase cfg_hidden)) ≠ ""
  ∧ IndexColumn (config (NewDatabase cfg_hidden))
    ∈ BlacklistedColumns (config (NewDatabase cfg_hidden))
  ∧ Forall2
      (λ record q,
         ∃ v, models.Fields record
              !! IndexColumn (config (NewDatabase cfg_hidden)) = Some v
           ∧ elastic.Index q
             = spec_prefix (config (NewDatabase cfg_hidden)) record
               +:+ "-" +:+ v
           ∧ elastic.Doc q !! IndexColumn (config (NewDatabase cfg_hidden))
             = None)
      [rec_orders] qs_hidden.
Proof.
  assert (EvBulkDo client1 10000000000 qs_hidden
          ∈ emitted s_init
              (Insert (NewDatabase cfg_hidden) [rec_orders] w_up s_init))
    as Hin by (vm_compute; constructor; constructor).
  assert (IndexColumn (config (NewDatabase cfg_hidden)) ≠ "")
    as Hne by (simpl; discriminate).
  assert (IndexColumn (config (NewDatabase cfg_hidden))
          ∈ BlacklistedColumns (config (NewDatabase cfg_hidden)))
    as Hbl by (simpl; constructor).
  split; [exact Hin|]. split; [exact Hne|]. split; [exact Hbl|].
  exact (Insert_blacklisted_column_still_derives (NewDatabase cfg_hidden) w_up
           [rec_orders] s_init client1 10000000000 qs_hidden Hin Hne Hbl).
Defined.

Lemma GetClient_shared_witness :
  GetClient sink_default w_up s_init = Returned client1 s_connected1
  ∧ GetClient sink_other w_up s_connected1 = Returned client1 s_connected1
  ∧ esClient s_connected1 = Some client1.
Proof.
  assert (GetClient sink_default w_up s_init = Returned client1 s_connected1)
    as Hc by (vm_compute; reflexivity).
  split; [exact Hc|].
  exact (GetClient_shared w_up sink_default sink_other s_init s_connected1
           client1 Hc).
Defined.

(** The check of [targets_live] is a real one: a ping on a stopped
    handle fails it. *)
Example targets_live_rejects_stopped_handle :
  targets_live w_up
    [EvNewClient "http://localhost:9200"; EvStop client1;
     EvPingDo client1 "http://localhost:9200"] = false.
Proof. vm_compute. reflexivity. Qed.

(** A sink for another host uses the handle the first sink connected:
    its probe pings its own host through that handle. *)
Example scenario_shared_handle :
  run_ops [(sink_default, OpGetClient); (sink_other, OpReadinessCheck)]
    w_up s_init
  = Returned tt
      (extend s_connected1
         [EvPingDo client1 "http://other:9200";
          EvLog LevelInfo None "connected to es version 6.8.0"]).
Proof. vm_compute. reflexivity. Qed.
